(** * MCP search servers (fofa_search, hunter_search): model and properties

    Shallow embedding of the two Go programs of the repository:

    - [mcp_fofa_server.go]   (module [Fofa]):   the FOFA client and the
      [fofa_search] tool handler;
    - the Hunter server      (module [Hunter]): the Hunter client and the
      [hunter_search] tool handler.

    Go strings are byte sequences and are modelled by [string] (a list of
    [ascii], one per byte); Go [int] values are modelled by [Z].  The parts
    of the Go standard library that the two programs call ([encoding/base64],
    [net/url], [fmt], [encoding/json]) are modelled in the modules
    [Base64], [Url], [Fmt] and [Json]. *)

From Stdlib Require Import ZArith List Bool Ascii String Lia.
From Stdlib Require Import DecimalString DecimalPos.
From coqutil Require Import Z.bitblast.
Import ListNotations.

Local Open Scope string_scope.
Local Open Scope Z_scope.

(** ** Bytes *)

(** [uint(b)] : the value of a byte as an integer. *)
Definition byte_val (c : ascii) : Z := Z.of_N (N_of_ascii c).

(** [byte(v)] : conversion of an integer to a byte keeps the low 8 bits. *)
Definition to_byte (v : Z) : ascii := ascii_of_N (Z.to_N (Z.land v 255)).

(** [s[i]], with the zero byte standing for an index out of range (the
    programs never index out of range: every index is masked first). *)
Definition byte_at (s : string) (i : Z) : ascii :=
  match String.get (Z.to_nat i) s with
  | Some c => c
  | None => zero
  end.

(** [lo <= c && c <= hi] on bytes. *)
Definition in_range (lo hi : Z) (c : ascii) : bool :=
  (lo <=? byte_val c) && (byte_val c <=? hi).

(** ** encoding/base64 *)
Module Base64.

(** An [Encoding] is its 64-character alphabet and its padding
    character. *)
Record Encoding := {
  encode : string;
  padChar : ascii
}.

Definition encodeStd : string :=
  "ABCDEFGHIJKLMNOPQRSTUVWXYZabcdefghijklmnopqrstuvwxyz0123456789+/".
Definition encodeURL : string :=
  "ABCDEFGHIJKLMNOPQRSTUVWXYZabcdefghijklmnopqrstuvwxyz0123456789-_".

Definition StdPadding : ascii := "="%char.

Definition StdEncoding : Encoding :=
  {| encode := encodeStd; padChar := StdPadding |}.
Definition URLEncoding : Encoding :=
  {| encode := encodeURL; padChar := StdPadding |}.

(** [Encoding.EncodeToString]: every three source bytes become four
    characters; a remainder of one or two bytes is encoded and padded. *)
Fixpoint EncodeToString (enc : Encoding) (src : string) : string :=
  match src with
  | EmptyString => EmptyString
  | String b0 EmptyString =>
      let val := Z.shiftl (byte_val b0) 16 in
      String (byte_at (encode enc) (Z.land (Z.shiftr val 18) 63))
     (String (byte_at (encode enc) (Z.land (Z.shiftr val 12) 63))
     (String (padChar enc)
     (String (padChar enc) EmptyString)))
  | String b0 (String b1 EmptyString) =>
      let val := Z.lor (Z.shiftl (byte_val b0) 16)
                       (Z.shiftl (byte_val b1) 8) in
      String (byte_at (encode enc) (Z.land (Z.shiftr val 18) 63))
     (String (byte_at (encode enc) (Z.land (Z.shiftr val 12) 63))
     (String (byte_at (encode enc) (Z.land (Z.shiftr val 6) 63))
     (String (padChar enc) EmptyString)))
  | String b0 (String b1 (String b2 rest)) =>
      let val := Z.lor (Z.lor (Z.shiftl (byte_val b0) 16)
                              (Z.shiftl (byte_val b1) 8))
                       (byte_val b2) in
      String (byte_at (encode enc) (Z.land (Z.shiftr val 18) 63))
     (String (byte_at (encode enc) (Z.land (Z.shiftr val 12) 63))
     (String (byte_at (encode enc) (Z.land (Z.shiftr val 6) 63))
     (String (byte_at (encode enc) (Z.land val 63))
             (EncodeToString enc rest))))
  end.

(** The decoding side is not part of the programs: it is what the remote
    service applies to the parameter it receives.  It is the decoder of
    RFC 4648 for a padded alphabet, written the way Go's [decodeQuantum]
    assembles the bytes. *)

(** [decodeMap]: the position of a character in the alphabet. *)
Fixpoint index_of (c : ascii) (alphabet : string) (i : Z) : option Z :=
  match alphabet with
  | EmptyString => None
  | String a rest =>
      if Ascii.eqb a c then Some i else index_of c rest (i + 1)
  end.

Definition decodeMap (enc : Encoding) (c : ascii) : option Z :=
  index_of c (encode enc) 0.

Definition quantum (v0 v1 v2 v3 : Z) : Z :=
  Z.lor (Z.lor (Z.lor (Z.shiftl v0 18) (Z.shiftl v1 12)) (Z.shiftl v2 6)) v3.

Fixpoint DecodeString (enc : Encoding) (s : string) : option string :=
  match s with
  | EmptyString => Some EmptyString
  | String c0 (String c1 (String c2 (String c3 rest))) =>
      match decodeMap enc c0, decodeMap enc c1 with
      | Some v0, Some v1 =>
          if Ascii.eqb c3 (padChar enc) then
            match rest with
            | EmptyString =>
                if Ascii.eqb c2 (padChar enc) then
                  let val := quantum v0 v1 0 0 in
                  Some (String (to_byte (Z.shiftr val 16)) EmptyString)
                else
                  match decodeMap enc c2 with
                  | Some v2 =>
                      let val := quantum v0 v1 v2 0 in
                      Some (String (to_byte (Z.shiftr val 16))
                           (String (to_byte (Z.shiftr val 8)) EmptyString))
                  | None => None
                  end
            | String _ _ => None
            end
          else
            match decodeMap enc c2, decodeMap enc c3 with
            | Some v2, Some v3 =>
                let val := quantum v0 v1 v2 v3 in
                match DecodeString enc rest with
                | Some tail =>
                    Some (String (to_byte (Z.shiftr val 16))
                         (String (to_byte (Z.shiftr val 8))
                         (String (to_byte val) tail)))
                | None => None
                end
            | _, _ => None
            end
      | _, _ => None
      end
  | _ => None
  end.

End Base64.

(** ** net/url *)
Module Url.

(** [url.Values] is a [map[string][]string]; the model keeps one entry
    per key, and [Encode] visits the keys in sorted order. *)
Definition Values := list (string * list string).

Definition empty : Values := [].

(** [v.Add(key, value)] appends [value] to the values of [key]. *)
Fixpoint Add (v : Values) (key value : string) : Values :=
  match v with
  | [] => [(key, [value])]
  | (k, vs) :: rest =>
      if String.eqb k key then (k, (vs ++ [value])%list) :: rest
      else (k, vs) :: Add rest key value
  end.

(** [v[key]] together with the presence flag. *)
Fixpoint lookup (v : Values) (key : string) : option (list string) :=
  match v with
  | [] => None
  | (k, vs) :: rest => if String.eqb k key then Some vs else lookup rest key
  end.

(** [shouldEscape(c, encodeQueryComponent)]: everything but the
    unreserved characters is escaped. *)
Definition shouldEscape (c : ascii) : bool :=
  if in_range 97 122 c || in_range 65 90 c || in_range 48 57 c then false
  else if Ascii.eqb c "-" || Ascii.eqb c "_" || Ascii.eqb c "."
          || Ascii.eqb c "~" then false
  else true.

Definition upperhex : string := "0123456789ABCDEF".

(** [url.QueryEscape]: a space becomes [+], an escaped byte becomes
    [%XX]. *)
Fixpoint QueryEscape (s : string) : string :=
  match s with
  | EmptyString => EmptyString
  | String c rest =>
      if Ascii.eqb c " " then String "+" (QueryEscape rest)
      else if shouldEscape c then
        String "%"
       (String (byte_at upperhex (Z.shiftr (byte_val c) 4))
       (String (byte_at upperhex (Z.land (byte_val c) 15))
               (QueryEscape rest)))
      else String c (QueryEscape rest)
  end.

(** [slices.Sort(keys)] : the keys in increasing byte order. *)
Fixpoint insert_sorted (k : string) (keys : list string) : list string :=
  match keys with
  | [] => [k]
  | k' :: rest =>
      if String.leb k k' then k :: keys else k' :: insert_sorted k rest
  end.

Definition sorted_keys (v : Values) : list string :=
  fold_right insert_sorted [] (map fst v).

(** One [key=value] pair written to the buffer, after a [&] when the
    buffer already holds something. *)
Definition write_pair (keyEscaped : string) (buf value : string) : string :=
  (if (String.length buf =? 0)%nat then buf else buf ++ "&")
    ++ keyEscaped ++ "=" ++ QueryEscape value.

(** [v.Encode()] *)
Definition Encode (v : Values) : string :=
  fold_left
    (fun buf k =>
       match lookup v k with
       | Some vs => fold_left (write_pair (QueryEscape k)) vs buf
       | None => buf
       end)
    (sorted_keys v) EmptyString.

(** The receiving side of [QueryEscape], [url.QueryUnescape]: [+] is a
    space, [%XX] is the byte with that hexadecimal code, and a ['%'] that
    is not followed by two hexadecimal digits is an [EscapeError]
    ([None]). *)
Definition ishex (c : ascii) : bool :=
  in_range 48 57 c || in_range 97 102 c || in_range 65 70 c.

Definition unhex (c : ascii) : Z :=
  if in_range 48 57 c then byte_val c - 48
  else if in_range 97 102 c then byte_val c - 97 + 10
  else if in_range 65 70 c then byte_val c - 65 + 10
  else 0.

Fixpoint QueryUnescape (s : string) : option string :=
  match s with
  | EmptyString => Some EmptyString
  | String c rest =>
      if Ascii.eqb c "%" then
        match rest with
        | String h1 (String h2 rest') =>
            if ishex h1 && ishex h2 then
              match QueryUnescape rest' with
              | Some t =>
                  Some (String (to_byte (Z.lor (Z.shiftl (unhex h1) 4)
                                               (unhex h2))) t)
              | None => None
              end
            else None
        | _ => None
        end
      else
        match QueryUnescape rest with
        | Some t => Some (String (if Ascii.eqb c "+" then " "%char else c) t)
        | None => None
        end
  end.

End Url.

(** ** Errors and dynamically typed values *)

(** The [error] values the programs handle, by origin: a failure of
    [http.Get] or of [ioutil.ReadAll], the two errors of
    [json.Unmarshal], and the error built by [fmt.Errorf]. *)
Inductive error : Type :=
| NetError (msg : string)
| SyntaxError (msg : string)
| UnmarshalTypeError (Value : string) (Type_ : string)
| errorString (s : string).

(** [err.Error()].  For [UnmarshalTypeError] the struct and field named
    by recent Go versions are not tracked. *)
Definition Error (err : error) : string :=
  match err with
  | NetError msg => msg
  | SyntaxError msg => msg
  | UnmarshalTypeError v t =>
      "json: cannot unmarshal " ++ v ++ " into Go value of type " ++ t
  | errorString s => s
  end.

(** The taxonomy of failures of section 7 of the specification. *)
Inductive ErrorKind : Type := TransportError | DecodeError | BackendError.

Definition kind_of (err : error) : ErrorKind :=
  match err with
  | NetError _ => TransportError
  | SyntaxError _ | UnmarshalTypeError _ _ => DecodeError
  | errorString _ => BackendError
  end.

(** A Go call that returns [(T, error)]. *)
Inductive result (T : Type) : Type :=
| Ok (x : T)
| Err (err : error).
Arguments Ok {T} x.
Arguments Err {T} err.

(** [float64] is not interpreted: the model only needs to know which JSON
    number literals [strconv.ParseFloat] accepts and how
    [strconv.FormatFloat(f, 'g', -1, 64)] prints a value. *)
Class Float64 : Type := {
  float64 : Type;
  ParseFloat : string -> option float64;
  FormatFloat : float64 -> string
}.

(** The values [json.Unmarshal] stores in an [interface{}]: [nil], [bool],
    [float64], [string], [[]interface{}] and [map[string]interface{}]. *)
#[local] Unset Elimination Schemes.
Inductive value `{Float64} : Type :=
| VNil
| VBool (b : bool)
| VFloat64 (f : float64)
| VString (s : string)
| VSlice (elems : list value)
| VMap (entries : list (string * value)).
#[local] Set Elimination Schemes.

(** [m[key]] on a [map[string]interface{}]: the zero value [nil] when the
    key is absent. *)
Fixpoint map_index `{Float64} (entries : list (string * value))
  (key : string) : value :=
  match entries with
  | [] => VNil
  | (k, v) :: rest => if String.eqb k key then v else map_index rest key
  end.

(** [m[key] = v]. *)
Fixpoint map_assign `{Float64} (entries : list (string * value))
  (key : string) (v : value) : list (string * value) :=
  match entries with
  | [] => [(key, v)]
  | (k, v') :: rest =>
      if String.eqb k key then (k, v) :: rest
      else (k, v') :: map_assign rest key v
  end.

(** ** fmt *)
Module Fmt.

(** A line feed, the ["\n"] of the Go sources. *)
Definition LF : string := String "010"%char EmptyString.

(** [%d] of an [int]. *)
Definition fmtInteger (n : Z) : string := NilZero.string_of_int (Z.to_int n).

Definition percentBangString : string := "%!".
Definition missingString : string := "(MISSING)".
Definition badIndexString : string := "(BADINDEX)".
Definition noVerbString : string := "%!(NOVERB)".
Definition badWidthString : string := "%!(BADWIDTH)".
Definition badPrecString : string := "%!(BADPREC)".
Definition nilAngleString : string := "<nil>".

(** *** [doPrintf] for a call without operands

    The two programs call [fmt.Errorf(msg)] with the message as format
    and no operand, so [len(a) = 0] throughout: [argNum] stays [0], no
    verb finds an operand.  The position [i] in the format is modelled
    by the part of the format that starts at [i]. *)

Definition tooLarge (x : Z) : bool := (1000000 <? x) || (x <? -1000000).

Definition is_digit (c : ascii) : bool := in_range 48 57 c.

(** [parsenum(s, start, end)] on the bytes [s[start:end]]: the number,
    whether one was read, and the bytes left from [newi] on.  On
    overflow [newi = end]. *)
Fixpoint parsenum_loop (s : string) (num : Z) (isnum : bool)
  : Z * bool * string :=
  match s with
  | EmptyString => (num, isnum, s)
  | String c rest =>
      if is_digit c then
        if tooLarge num then (0, false, EmptyString)
        else parsenum_loop rest (num * 10 + (byte_val c - 48)) true
      else (num, isnum, s)
  end.

Definition parsenum (s : string) : Z * bool * string :=
  parsenum_loop s 0 false.

(** The bytes before the first [']'] and the bytes after it. *)
Fixpoint split_bracket (s : string) : option (string * string) :=
  match s with
  | EmptyString => None
  | String c rest =>
      if Ascii.eqb c "]" then Some (EmptyString, rest)
      else match split_bracket rest with
           | Some (inner, after) => Some (String c inner, after)
           | None => None
           end
  end.

(** [parseArgNumber(format)], for a [format] that starts with ['[']:
    the index, the bytes left after the [wid] bytes consumed, and [ok]. *)
Definition parseArgNumber (format : string) : Z * string * bool :=
  match format with
  | EmptyString => (0, EmptyString, false)
  | String _ after1 =>
      if (String.length format <? 3)%nat then (0, after1, false)
      else
        match split_bracket after1 with
        | None => (0, after1, false)
        | Some (inner, after) =>
            let '(width, ok, unread) := parsenum inner in
            if negb ok || negb (String.length unread =? 0)%nat
            then (0, after, false)
            else (width - 1, after, true)
        end
  end.

(** [i < end && format[i] == c]: the bytes after [c] when the format
    starts with it. *)
Definition starts_with (c : ascii) (format : string) : option string :=
  match format with
  | EmptyString => None
  | String c' rest => if Ascii.eqb c' c then Some rest else None
  end.

(** [p.argNumber(argNum, format, i, 0)]: the bytes left, [found], and
    the new value of [p.goodArgNum].  With no operand no index is in
    range, so a bracket always clears [goodArgNum]. *)
Definition argNumber (format : string) (goodArgNum : bool)
  : string * bool * bool :=
  match starts_with "[" format with
  | Some _ =>
      let '(_, after, ok) := parseArgNumber format in (after, ok, false)
  | None => (format, false, goodArgNum)
  end.

(** The flags loop ([simpleFormat]): with no operand the fast path is
    never taken and the loop stops at the first byte that is no flag. *)
Fixpoint skip_flags (s : string) : string :=
  match s with
  | String c rest =>
      if Ascii.eqb c "#" || Ascii.eqb c "0" || Ascii.eqb c "+"
         || Ascii.eqb c "-" || Ascii.eqb c " "
      then skip_flags rest else s
  | EmptyString => s
  end.

(** [utf8.DecodeRuneInString] followed by [writeRune], for a verb that
    is not ASCII: the bytes written for the rune and the bytes left.
    An invalid sequence is one byte long and is written as U+FFFD. *)
Definition RuneError : string :=
  String "239"%char (String "191"%char (String "189"%char EmptyString)).

(** [first[s0]] with [acceptRanges]: the length of the sequence a lead
    byte announces and the range of its second byte. *)
Definition first (s0 : ascii) : option (nat * Z * Z) :=
  let b := byte_val s0 in
  if (194 <=? b) && (b <=? 223) then Some (2%nat, 128, 191)
  else if b =? 224 then Some (3%nat, 160, 191)
  else if (225 <=? b) && (b <=? 236) then Some (3%nat, 128, 191)
  else if b =? 237 then Some (3%nat, 128, 159)
  else if (238 <=? b) && (b <=? 239) then Some (3%nat, 128, 191)
  else if b =? 240 then Some (4%nat, 144, 191)
  else if (241 <=? b) && (b <=? 243) then Some (4%nat, 128, 191)
  else if b =? 244 then Some (4%nat, 128, 143)
  else None.

Definition decodeVerb (s : string) : string * string :=
  match s with
  | EmptyString => (EmptyString, EmptyString)
  | String s0 rest =>
      if byte_val s0 <? 128 then (String s0 EmptyString, rest)
      else
        match first s0 with
        | None => (RuneError, rest)
        | Some (sz, lo, hi) =>
            if (String.length s <? sz)%nat then (RuneError, rest)
            else
              match rest with
              | String s1 (String s2 (String s3 rest3)) =>
                  if negb (in_range lo hi s1) then (RuneError, rest)
                  else if (sz <=? 2)%nat
                  then (String s0 (String s1 EmptyString),
                        String s2 (String s3 rest3))
                  else if negb (in_range 128 191 s2)
                  then (RuneError, rest)
                  else if (sz <=? 3)%nat
                  then (String s0 (String s1 (String s2 EmptyString)),
                        String s3 rest3)
                  else if negb (in_range 128 191 s3)
                  then (RuneError, rest)
                  else (String s0 (String s1 (String s2
                                  (String s3 EmptyString))), rest3)
              | String s1 (String s2 EmptyString) =>
                  if negb (in_range lo hi s1) then (RuneError, rest)
                  else if (sz <=? 2)%nat
                  then (String s0 (String s1 EmptyString),
                        String s2 EmptyString)
                  else if negb (in_range 128 191 s2)
                  then (RuneError, rest)
                  else (String s0 (String s1 (String s2 EmptyString)),
                        EmptyString)
              | String s1 EmptyString =>
                  if negb (in_range lo hi s1) then (RuneError, rest)
                  else (String s0 (String s1 EmptyString), EmptyString)
              | EmptyString => (RuneError, rest)
              end
        end
  end.

(** The width of a verb: [*] asks for an operand, and there is none;
    otherwise a number is read.  What is written, the bytes left,
    [afterIndex] and [p.goodArgNum]. *)
Definition width (format : string) (afterIndex good : bool)
  : string * string * bool * bool :=
  match starts_with "*" format with
  | Some s' => (badWidthString, s', false, good)
  | None =>
      let '(_, widPresent, s') := parsenum format in
      (EmptyString, s', afterIndex,
       if afterIndex && widPresent then false else good)
  end.

(** The precision of a verb, after a ['.']. *)
Definition precision (format : string) (afterIndex good : bool)
  : string * string * bool * bool :=
  match starts_with "." format with
  | Some s =>
      let good := if afterIndex then false else good in
      let '(s, afterIndex, good) := argNumber s good in
      match starts_with "*" s with
      | Some s' => (badPrecString, s', false, good)
      | None =>
          let '(_, _, s') := parsenum s in
          (EmptyString, s', afterIndex, good)
      end
  | None => (EmptyString, format, afterIndex, good)
  end.

(** One turn of [formatLoop] after the ['%'] has been read: what is
    written, and the format left ([None] after the [break] of a format
    that ends without a verb). *)
Definition verb_step (format : string) : string * option string :=
  let s := skip_flags format in
  let '(s, afterIndex, good) := argNumber s true in
  let '(out1, s, afterIndex, good) := width s afterIndex good in
  let '(out2, s, afterIndex, good) := precision s afterIndex good in
  let '(s, _, good) :=
    if afterIndex then (s, afterIndex, good) else argNumber s good in
  match s with
  | EmptyString => (out1 ++ out2 ++ noVerbString, None)
  | String _ _ =>
      let '(verb, s') := decodeVerb s in
      let out :=
        if String.eqb verb "%" then "%"
        else if negb good
             then percentBangString ++ verb ++ badIndexString
             else percentBangString ++ verb ++ missingString in
      (out1 ++ out2 ++ out, Some s')
  end.

(** The bytes before the first ['%'] and the format from it on. *)
Fixpoint literal (format : string) : string * string :=
  match format with
  | EmptyString => (EmptyString, EmptyString)
  | String c rest =>
      if Ascii.eqb c "%" then (EmptyString, format)
      else let '(lit, s) := literal rest in (String c lit, s)
  end.

(** [formatLoop].  Every turn reads at least the ['%'], so
    [length format + 1] turns are enough. *)
Fixpoint doPrintf (turns : nat) (format : string) : string :=
  match turns with
  | O => EmptyString
  | S turns' =>
      let '(lit, s) := literal format in
      match s with
      | EmptyString => lit
      | String _ after =>
          let '(out, next) := verb_step after in
          lit ++ out ++
            match next with
            | Some s' => doPrintf turns' s'
            | None => EmptyString
            end
      end
  end.

(** [fmt.Sprintf(format)] without operands. *)
Definition Sprintf (format : string) : string :=
  doPrintf (S (String.length format)) format.

(** [fmt.Errorf(format)] without operands: no [%w] finds an operand,
    so the error is [errors.New] of the formatted text. *)
Definition Errorf (format : string) : error :=
  errorString (Sprintf format).

(** *** Operands of dynamic type under [%s] and [%v] *)

Inductive verb : Type := verb_s | verb_v.

Definition verb_char (vb : verb) : string :=
  match vb with verb_s => "s" | verb_v => "v" end.

(** [p.badVerb(verb)] for an operand of type [typ] whose [%v] form is
    [shown]. *)
Definition badVerb (vb : verb) (typ shown : string) : string :=
  percentBangString ++ verb_char vb ++ "(" ++ typ ++ "=" ++ shown ++ ")".

Definition fmtBool (b : bool) : string :=
  if b then "true" else "false".

(** [fmtsort.Sort] on string keys. *)
Fixpoint insert_entry (e : string * string) (es : list (string * string))
  : list (string * string) :=
  match es with
  | [] => [e]
  | e' :: rest =>
      if String.leb (fst e) (fst e') then e :: es
      else e' :: insert_entry e rest
  end.

Definition sort_entries (es : list (string * string))
  : list (string * string) :=
  fold_right insert_entry [] es.

(** [p.printValue(value, verb, depth)] for the values an [interface{}]
    holds after [json.Unmarshal]; a [nil] met inside a slice or a map
    prints as [<nil>] under both verbs. *)
Fixpoint printValue `{Float64} (vb : verb) (x : value) : string :=
  match x with
  | VNil => nilAngleString
  | VBool b =>
      match vb with
      | verb_v => fmtBool b
      | verb_s => badVerb vb "bool" (fmtBool b)
      end
  | VFloat64 f =>
      match vb with
      | verb_v => FormatFloat f
      | verb_s => badVerb vb "float64" (FormatFloat f)
      end
  | VString s => s
  | VSlice elems =>
      "[" ++ String.concat " " (map (printValue vb) elems) ++ "]"
  | VMap entries =>
      "map["
        ++ String.concat " "
             (map (fun e : string * string => fst e ++ ":" ++ snd e)
                  (sort_entries
                     (map (fun kv : string * value =>
                             (fst kv, printValue vb (snd kv))) entries)))
        ++ "]"
  end.

(** [p.printArg(arg, verb)]: a [nil] operand is the one case that is
    not left to [printValue]. *)
Definition printArg `{Float64} (vb : verb) (arg : value) : string :=
  match arg with
  | VNil =>
      match vb with
      | verb_v => nilAngleString
      | verb_s =>
          percentBangString ++ verb_char vb ++ "(" ++ nilAngleString ++ ")"
      end
  | _ => printValue vb arg
  end.

End Fmt.

(** ** encoding/json *)
Module Json.

(** A JSON document.  A number keeps its literal: [json.Unmarshal] hands
    the literal to [strconv]. *)
#[local] Unset Elimination Schemes.
Inductive json : Type :=
| JNull
| JBool (b : bool)
| JNumber (lit : string)
| JString (s : string)
| JArray (elems : list json)
| JObject (members : list (string * json)).
#[local] Set Elimination Schemes.

(** A response body as [json.Unmarshal] sees it: its syntax check either
    rejects the bytes with a [SyntaxError], whose text is [msg], or
    accepts them as a document. *)
Inductive text : Type :=
| Invalid (msg : string)
| Valid (doc : json).

(** The [Value] of an [UnmarshalTypeError]. *)
Definition describe (v : json) : string :=
  match v with
  | JNull => "null"
  | JBool _ => "bool"
  | JNumber _ => "number"
  | JString _ => "string"
  | JArray _ => "array"
  | JObject _ => "object"
  end.

(** [strconv.ParseInt(s, 10, 64)] *)
Fixpoint digits (s : string) (acc : Z) : option Z :=
  match s with
  | EmptyString => Some acc
  | String c rest =>
      if Fmt.is_digit c then digits rest (acc * 10 + (byte_val c - 48))
      else None
  end.

Definition ParseInt (s : string) : option Z :=
  let '(neg, ds) :=
    match s with
    | String "-" rest => (true, rest)
    | String "+" rest => (false, rest)
    | _ => (false, s)
    end in
  match ds with
  | EmptyString => None
  | String _ _ =>
      match digits ds 0 with
      | Some n =>
          let v := if neg then - n else n in
          if (- 2 ^ 63 <=? v) && (v <=? 2 ^ 63 - 1) then Some v else None
      | None => None
      end
  end.

(** [foldName]: ASCII letters in upper case; the two runes whose simple
    case folding is an ASCII letter, U+017F and U+212A, as [S] and [K].
    Every other rune folds to a rune outside ASCII and is left as it is,
    which decides equality with an ASCII field name the same way. *)
Fixpoint foldName (s : string) : string :=
  match s with
  | EmptyString => EmptyString
  | String "197" (String "191" rest) => String "S" (foldName rest)
  | String "226" (String "132" (String "170" rest)) =>
      String "K" (foldName rest)
  | String c rest =>
      String (if in_range 97 122 c
              then ascii_of_N (Z.to_N (byte_val c - 32)) else c)
             (foldName rest)
  end.

(** A key selects the field whose name it equals, exactly or after
    folding. *)
Definition matches (key name : string) : bool :=
  String.eqb key name || String.eqb (foldName key) (foldName name).

(** Decoding into a field that already holds [cur]: [null] leaves a
    [bool], an [int] or a [string] as it is. *)
Definition unmarshal_bool (cur : bool) (v : json) : result bool :=
  match v with
  | JNull => Ok cur
  | JBool b => Ok b
  | _ => Err (UnmarshalTypeError (describe v) "bool")
  end.

Definition unmarshal_string (cur : string) (v : json) : result string :=
  match v with
  | JNull => Ok cur
  | JString s => Ok s
  | _ => Err (UnmarshalTypeError (describe v) "string")
  end.

Definition unmarshal_int (cur : Z) (v : json) : result Z :=
  match v with
  | JNull => Ok cur
  | JNumber lit =>
      match ParseInt lit with
      | Some n => Ok n
      | None => Err (UnmarshalTypeError ("number " ++ lit) "int")
      end
  | _ => Err (UnmarshalTypeError (describe v) "int")
  end.

(** The first error met in document order is the one [Unmarshal]
    returns. *)
Fixpoint traverse {A B : Type} (f : A -> result B) (l : list A)
  : result (list B) :=
  match l with
  | [] => Ok []
  | x :: rest =>
      match f x with
      | Ok y =>
          match traverse f rest with
          | Ok ys => Ok (y :: ys)
          | Err e => Err e
          end
      | Err e => Err e
      end
  end.

(** Decoding into a slice: [null] gives the nil slice, an array gives
    its elements, each decoded into a zero element.  (When a key occurs
    twice Go decodes the second array over the elements of the first;
    the model decodes every array afresh.) *)
Definition unmarshal_slice {A : Type} (elem : A -> json -> result A)
  (zero : A) (type_name : string) (v : json) : result (list A) :=
  match v with
  | JNull => Ok []
  | JArray elems => traverse (elem zero) elems
  | _ => Err (UnmarshalTypeError (describe v) type_name)
  end.

(** Decoding into an [interface{}] ([d.valueInterface]). *)
Fixpoint valueInterface `{Float64} (v : json) : result value :=
  match v with
  | JNull => Ok VNil
  | JBool b => Ok (VBool b)
  | JNumber lit =>
      match ParseFloat lit with
      | Some f => Ok (VFloat64 f)
      | None => Err (UnmarshalTypeError ("number " ++ lit) "float64")
      end
  | JString s => Ok (VString s)
  | JArray elems =>
      match
        (fix array (l : list json) : result (list value) :=
           match l with
           | [] => Ok []
           | x :: rest =>
               match valueInterface x with
               | Ok y =>
                   match array rest with
                   | Ok ys => Ok (y :: ys)
                   | Err e => Err e
                   end
               | Err e => Err e
               end
           end) elems
      with
      | Ok ys => Ok (VSlice ys)
      | Err e => Err e
      end
  | JObject members =>
      match
        (fix object (l : list (string * json)) (m : list (string * value))
           : result (list (string * value)) :=
           match l with
           | [] => Ok m
           | (key, x) :: rest =>
               match valueInterface x with
               | Ok y => object rest (map_assign m key y)
               | Err e => Err e
               end
           end) members []
      with
      | Ok m => Ok (VMap m)
      | Err e => Err e
      end
  end.

(** Decoding an object into a struct: the members are visited in
    document order, each one stored by [set_field] into the struct as
    it stands (an unknown key is skipped by [set_field]). *)
Fixpoint object {T : Type} (set_field : T -> string -> json -> result T)
  (cur : T) (members : list (string * json)) : result T :=
  match members with
  | [] => Ok cur
  | (key, v) :: rest =>
      match set_field cur key v with
      | Ok cur' => object set_field cur' rest
      | Err e => Err e
      end
  end.

(** Decoding into a struct: [null] leaves it as it is. *)
Definition unmarshal_struct {T : Type}
  (set_field : T -> string -> json -> result T) (type_name : string)
  (cur : T) (v : json) : result T :=
  match v with
  | JNull => Ok cur
  | JObject members => object set_field cur members
  | _ => Err (UnmarshalTypeError (describe v) type_name)
  end.

(** Decoding into a pointer to a struct: [null] sets the pointer to
    [nil]; an object is decoded into the struct pointed to, allocated
    with zero fields when the pointer is [nil]. *)
Definition unmarshal_ptr {T : Type}
  (set_field : T -> string -> json -> result T) (type_name : string)
  (zero : T) (cur : option T) (v : json) : result (option T) :=
  match v with
  | JNull => Ok None
  | _ =>
      match unmarshal_struct set_field type_name
              (match cur with Some x => x | None => zero end) v with
      | Ok x => Ok (Some x)
      | Err e => Err e
      end
  end.

End Json.

(** ** net/http, as far as the programs use it *)
Module Http.

(** What [ioutil.ReadAll(resp.Body)] returns: an error, whose text is
    [msg], or the body. *)
Inductive ReadAll : Type :=
| ReadErr (msg : string)
| ReadOk (body : Json.text).

Record Response : Type := {
  StatusCode : Z;
  Body : ReadAll
}.

(** What [http.Get(url)] returns: an error, whose text is [msg], or a
    response. *)
Inductive GetResult : Type :=
| GetErr (msg : string)
| GetOk (resp : Response).

(** The network: the answer to a GET of a URL. *)
Definition Network := string -> GetResult.

End Http.

(** ** mcp_golang, as far as the handlers use it *)

(** A failed type assertion or a nil dereference stops the handler. *)
Inductive panic : Type :=
| NilDereference
| InterfaceConversion (dynamicType : string).

(** How a call of a tool handler ends: with
    [NewToolResponse(NewTextContent(text)), nil], with [nil, err], or in a
    panic. *)
Inductive ToolResult : Type :=
| Response (text : string)
| Failure (err : error)
| Panicked (p : panic).

(** How [main] goes, up to the call of [server.RegisterTool]: it stops the
    process with [os.Exit] after it has printed [stdout], it panics with a
    value, or it registers a tool.  What [RegisterTool] and [Serve] do
    with the tool is the library's business. *)
Inductive Startup (Handler : Type) : Type :=
| Exit (stdout : string) (code : Z)
| Panic (v : string)
| RegisterTool (name description : string) (handler : Handler).
Arguments Exit {Handler} stdout code.
Arguments Panic {Handler} v.
Arguments RegisterTool {Handler} name description handler.

(** ** The FOFA server ([mcp_fofa_server.go]) *)
Module Fofa.

Module FofaClient.
Record t : Type := {
  Email : string;
  Key : string;
  BaseURL : string
}.
End FofaClient.

Definition NewFofaClient (email key : string) : FofaClient.t :=
  {| FofaClient.Email := email;
     FofaClient.Key := key;
     FofaClient.BaseURL := "https://fofa.info/api/v1" |}.

Module SearchResult.
Record t : Type := {
  Error : bool;
  ErrMsg : string;
  Mode : string;
  Page : Z;
  Size : Z;
  Results : list (list string)
}.

(** [var result SearchResult] *)
Definition zero : t :=
  {| Error := false; ErrMsg := EmptyString; Mode := EmptyString;
     Page := 0; Size := 0; Results := [] |}.

(** One member of the JSON object stored into the field its key
    selects through the [json:"..."] tags. *)
Definition set_field (r : t) (key : string) (v : Json.json) : result t :=
  if Json.matches key "error" then
    match Json.unmarshal_bool (Error r) v with
    | Ok x => Ok {| Error := x; ErrMsg := ErrMsg r; Mode := Mode r;
                    Page := Page r; Size := Size r;
                    Results := Results r |}
    | Err e => Err e
    end
  else if Json.matches key "errmsg" then
    match Json.unmarshal_string (ErrMsg r) v with
    | Ok x => Ok {| Error := Error r; ErrMsg := x; Mode := Mode r;
                    Page := Page r; Size := Size r;
                    Results := Results r |}
    | Err e => Err e
    end
  else if Json.matches key "mode" then
    match Json.unmarshal_string (Mode r) v with
    | Ok x => Ok {| Error := Error r; ErrMsg := ErrMsg r; Mode := x;
                    Page := Page r; Size := Size r;
                    Results := Results r |}
    | Err e => Err e
    end
  else if Json.matches key "page" then
    match Json.unmarshal_int (Page r) v with
    | Ok x => Ok {| Error := Error r; ErrMsg := ErrMsg r; Mode := Mode r;
                    Page := x; Size := Size r; Results := Results r |}
    | Err e => Err e
    end
  else if Json.matches key "size" then
    match Json.unmarshal_int (Size r) v with
    | Ok x => Ok {| Error := Error r; ErrMsg := ErrMsg r; Mode := Mode r;
                    Page := Page r; Size := x; Results := Results r |}
    | Err e => Err e
    end
  else if Json.matches key "results" then
    match Json.unmarshal_slice
            (fun _ => Json.unmarshal_slice Json.unmarshal_string
                        EmptyString "[]string")
            [] "[][]string" v with
    | Ok x => Ok {| Error := Error r; ErrMsg := ErrMsg r; Mode := Mode r;
                    Page := Page r; Size := Size r; Results := x |}
    | Err e => Err e
    end
  else Ok r.
End SearchResult.

(** [json.Unmarshal(body, &result)] on a fresh [result]. *)
Definition Unmarshal (body : Json.text) : result SearchResult.t :=
  match body with
  | Json.Invalid msg => Err (SyntaxError msg)
  | Json.Valid doc =>
      Json.unmarshal_struct SearchResult.set_field "main.SearchResult"
        SearchResult.zero doc
  end.

Definition base64Encode (s : string) : string :=
  Base64.EncodeToString Base64.StdEncoding s.

(** The query parameters of [Search], lines 46 to 52. *)
Definition params (fc : FofaClient.t) (query : string) (page size : Z)
  (fields : string) : Url.Values :=
  let params := Url.empty in
  let params := Url.Add params "qbase64" (base64Encode query) in
  let params := Url.Add params "email" (FofaClient.Email fc) in
  let params := Url.Add params "key" (FofaClient.Key fc) in
  let params := Url.Add params "page" (Fmt.fmtInteger page) in
  let params := Url.Add params "size" (Fmt.fmtInteger size) in
  let params := Url.Add params "fields" fields in
  params.

(** The URL of the GET request, line 54. *)
Definition requestURL (fc : FofaClient.t) (query : string) (page size : Z)
  (fields : string) : string :=
  FofaClient.BaseURL fc ++ "/search/all?"
    ++ Url.Encode (params fc query page size fields).

Definition Search (net : Http.Network) (fc : FofaClient.t) (query : string)
  (page size : Z) (fields : string) : result SearchResult.t :=
  match net (requestURL fc query page size fields) with
  | Http.GetErr msg => Err (NetError msg)
  | Http.GetOk resp =>
      match Http.Body resp with
      | Http.ReadErr msg => Err (NetError msg)
      | Http.ReadOk body => Unmarshal body
      end
  end.

Module FofaSearchArguments.
Record t : Type := {
  Query : string;
  Page : Z;
  Size : Z;
  Fields : string
}.
End FofaSearchArguments.

(** The defaulting step of the handler, lines 104 to 109. *)
Definition defaults (arguments : FofaSearchArguments.t)
  : FofaSearchArguments.t :=
  let arguments :=
    if FofaSearchArguments.Page arguments =? 0
    then {| FofaSearchArguments.Query := FofaSearchArguments.Query arguments;
            FofaSearchArguments.Page := 1;
            FofaSearchArguments.Size := FofaSearchArguments.Size arguments;
            FofaSearchArguments.Fields :=
              FofaSearchArguments.Fields arguments |}
    else arguments in
  if FofaSearchArguments.Size arguments =? 0
  then {| FofaSearchArguments.Query := FofaSearchArguments.Query arguments;
          FofaSearchArguments.Page := FofaSearchArguments.Page arguments;
          FofaSearchArguments.Size := 50;
          FofaSearchArguments.Fields := FofaSearchArguments.Fields arguments |}
  else arguments.

(** The report, lines 119 to 123: the header, then one line per row. *)
Definition output (res : SearchResult.t) : string :=
  fold_left
    (fun output item => output ++ String.concat " | " item ++ Fmt.LF)
    (SearchResult.Results res)
    ("搜索结果(共"
       ++ Fmt.fmtInteger (Z.of_nat (List.length (SearchResult.Results res)))
       ++ "条):" ++ Fmt.LF).

(** The handler registered as [fofa_search]; [email] and [key] are the
    two flags of [main]. *)
Definition fofa_search (email key : string) (net : Http.Network)
  (arguments : FofaSearchArguments.t) : ToolResult :=
  let arguments := defaults arguments in
  let client := NewFofaClient email key in
  match Search net client
          (FofaSearchArguments.Query arguments)
          (FofaSearchArguments.Page arguments)
          (FofaSearchArguments.Size arguments)
          (FofaSearchArguments.Fields arguments) with
  | Err err => Failure err
  | Ok res =>
      if SearchResult.Error res
      then Failure (Fmt.Errorf (SearchResult.ErrMsg res))
      else Response (output res)
  end.

(** [main], for the values [email] and [key] of the two flags after
    [flag.Parse]. *)
Definition main (email key : string)
  : Startup (Http.Network -> FofaSearchArguments.t -> ToolResult) :=
  if String.eqb email EmptyString || String.eqb key EmptyString then
    Exit ("Error: email and key are required" ++ Fmt.LF
            ++ "Usage: go run fofa_mcp_server.go -email <your_email> -key <your_key>"
            ++ Fmt.LF)
         1
  else RegisterTool "fofa_search" "FOFA搜索引擎" (fofa_search email key).

End Fofa.

(** ** The Hunter server *)
Module Hunter.

Module HunterClient.
Record t : Type := {
  APIKey : string;
  BaseURL : string
}.
End HunterClient.

Definition NewHunterClient (apiKey : string) : HunterClient.t :=
  {| HunterClient.APIKey := apiKey;
     HunterClient.BaseURL := "https://hunter.qianxin.com/openApi/search" |}.

Module ResultData.
Record t `{Float64} : Type := {
  Total : Z;
  Time : Z;
  Arr : list value;
  ConsumeQuota : string;
  RestQuota : string
}.

Definition zero `{Float64} : t :=
  {| Total := 0; Time := 0; Arr := [];
     ConsumeQuota := EmptyString; RestQuota := EmptyString |}.

Definition set_field `{Float64} (d : t) (key : string) (v : Json.json)
  : result t :=
  if Json.matches key "total" then
    match Json.unmarshal_int (Total d) v with
    | Ok x => Ok {| Total := x; Time := Time d; Arr := Arr d;
                    ConsumeQuota := ConsumeQuota d;
                    RestQuota := RestQuota d |}
    | Err e => Err e
    end
  else if Json.matches key "time" then
    match Json.unmarshal_int (Time d) v with
    | Ok x => Ok {| Total := Total d; Time := x; Arr := Arr d;
                    ConsumeQuota := ConsumeQuota d;
                    RestQuota := RestQuota d |}
    | Err e => Err e
    end
  else if Json.matches key "arr" then
    match Json.unmarshal_slice (fun _ => Json.valueInterface)
            VNil "[]interface {}" v with
    | Ok x => Ok {| Total := Total d; Time := Time d; Arr := x;
                    ConsumeQuota := ConsumeQuota d;
                    RestQuota := RestQuota d |}
    | Err e => Err e
    end
  else if Json.matches key "consume_quota" then
    match Json.unmarshal_string (ConsumeQuota d) v with
    | Ok x => Ok {| Total := Total d; Time := Time d; Arr := Arr d;
                    ConsumeQuota := x; RestQuota := RestQuota d |}
    | Err e => Err e
    end
  else if Json.matches key "rest_quota" then
    match Json.unmarshal_string (RestQuota d) v with
    | Ok x => Ok {| Total := Total d; Time := Time d; Arr := Arr d;
                    ConsumeQuota := ConsumeQuota d; RestQuota := x |}
    | Err e => Err e
    end
  else Ok d.
End ResultData.

Module SearchResult.
(** [Data] is a pointer: [None] is [nil]. *)
Record t `{Float64} : Type := {
  Code : Z;
  Message : string;
  Data : option ResultData.t
}.

Definition zero `{Float64} : t :=
  {| Code := 0; Message := EmptyString; Data := None |}.

Definition set_field `{Float64} (r : t) (key : string) (v : Json.json)
  : result t :=
  if Json.matches key "code" then
    match Json.unmarshal_int (Code r) v with
    | Ok x => Ok {| Code := x; Message := Message r; Data := Data r |}
    | Err e => Err e
    end
  else if Json.matches key "message" then
    match Json.unmarshal_string (Message r) v with
    | Ok x => Ok {| Code := Code r; Message := x; Data := Data r |}
    | Err e => Err e
    end
  else if Json.matches key "data" then
    match Json.unmarshal_ptr ResultData.set_field "main.ResultData"
            ResultData.zero (Data r) v with
    | Ok x => Ok {| Code := Code r; Message := Message r; Data := x |}
    | Err e => Err e
    end
  else Ok r.
End SearchResult.

(** [json.Unmarshal(body, &result)] on a fresh [result]. *)
Definition Unmarshal `{Float64} (body : Json.text) : result SearchResult.t :=
  match body with
  | Json.Invalid msg => Err (SyntaxError msg)
  | Json.Valid doc =>
      Json.unmarshal_struct SearchResult.set_field "main.SearchResult"
        SearchResult.zero doc
  end.

Definition base64URLEncode (s : string) : string :=
  Base64.EncodeToString Base64.URLEncoding s.

(** The query parameters of [Search], lines 48 to 60. *)
Definition params (hc : HunterClient.t) (query : string)
  (page size isWeb : Z) (startTime endTime : string) : Url.Values :=
  let params := Url.empty in
  let params := Url.Add params "api-key" (HunterClient.APIKey hc) in
  let params := Url.Add params "search" (base64URLEncode query) in
  let params := Url.Add params "page" (Fmt.fmtInteger page) in
  let params := Url.Add params "page_size" (Fmt.fmtInteger size) in
  let params := Url.Add params "is_web" (Fmt.fmtInteger isWeb) in
  let params :=
    if negb (String.eqb startTime EmptyString)
    then Url.Add params "start_time" startTime else params in
  let params :=
    if negb (String.eqb endTime EmptyString)
    then Url.Add params "end_time" endTime else params in
  params.

(** The URL of the GET request, line 62. *)
Definition requestURL (hc : HunterClient.t) (query : string)
  (page size isWeb : Z) (startTime endTime : string) : string :=
  HunterClient.BaseURL hc ++ "?"
    ++ Url.Encode (params hc query page size isWeb startTime endTime).

Definition Search `{Float64} (net : Http.Network) (hc : HunterClient.t)
  (query : string) (page size isWeb : Z) (startTime endTime : string)
  : result SearchResult.t :=
  match net (requestURL hc query page size isWeb startTime endTime) with
  | Http.GetErr msg => Err (NetError msg)
  | Http.GetOk resp =>
      match Http.Body resp with
      | Http.ReadErr msg => Err (NetError msg)
      | Http.ReadOk body =>
          match Unmarshal body with
          | Err err => Err err
          | Ok res =>
              if negb (SearchResult.Code res =? 200)
              then Err (Fmt.Errorf (SearchResult.Message res))
              else Ok res
          end
      end
  end.

Module HunterSearchArguments.
Record t : Type := {
  Query : string;
  Page : Z;
  Size : Z;
  IsWeb : Z;
  StartTime : string;
  EndTime : string
}.
End HunterSearchArguments.

(** The defaulting step of the handler, lines 114 to 122. *)
Definition defaults (arguments : HunterSearchArguments.t)
  : HunterSearchArguments.t :=
  let arguments :=
    if HunterSearchArguments.Page arguments =? 0
    then {| HunterSearchArguments.Query :=
              HunterSearchArguments.Query arguments;
            HunterSearchArguments.Page := 1;
            HunterSearchArguments.Size :=
              HunterSearchArguments.Size arguments;
            HunterSearchArguments.IsWeb :=
              HunterSearchArguments.IsWeb arguments;
            HunterSearchArguments.StartTime :=
              HunterSearchArguments.StartTime arguments;
            HunterSearchArguments.EndTime :=
              HunterSearchArguments.EndTime arguments |}
    else arguments in
  let arguments :=
    if HunterSearchArguments.Size arguments =? 0
    then {| HunterSearchArguments.Query :=
              HunterSearchArguments.Query arguments;
            HunterSearchArguments.Page :=
              HunterSearchArguments.Page arguments;
            HunterSearchArguments.Size := 20;
            HunterSearchArguments.IsWeb :=
              HunterSearchArguments.IsWeb arguments;
            HunterSearchArguments.StartTime :=
              HunterSearchArguments.StartTime arguments;
            HunterSearchArguments.EndTime :=
              HunterSearchArguments.EndTime arguments |}
    else arguments in
  if HunterSearchArguments.IsWeb arguments =? 0
  then {| HunterSearchArguments.Query :=
            HunterSearchArguments.Query arguments;
          HunterSearchArguments.Page :=
            HunterSearchArguments.Page arguments;
          HunterSearchArguments.Size :=
            HunterSearchArguments.Size arguments;
          HunterSearchArguments.IsWeb := 1;
          HunterSearchArguments.StartTime :=
            HunterSearchArguments.StartTime arguments;
          HunterSearchArguments.EndTime :=
            HunterSearchArguments.EndTime arguments |}
  else arguments.

(** The dynamic type named by a failed [item.(map[string]interface{})]. *)
Definition dynamicType `{Float64} (item : value) : string :=
  match item with
  | VNil => "nil"
  | VBool _ => "bool"
  | VFloat64 _ => "float64"
  | VString _ => "string"
  | VSlice _ => "[]interface {}"
  | VMap _ => "map[string]interface {}"
  end.

(** The line of one record, lines 134 and 135. *)
Definition record_line `{Float64} (itemMap : list (string * value))
  : string :=
  "IP: " ++ Fmt.printArg Fmt.verb_s (map_index itemMap "ip")
    ++ " | 端口: " ++ Fmt.printArg Fmt.verb_v (map_index itemMap "port")
    ++ " | 标题: "
    ++ Fmt.printArg Fmt.verb_s (map_index itemMap "web_title")
    ++ Fmt.LF.

(** The loop over [result.Data.Arr], lines 132 to 136, then the
    [return] of line 138. *)
Fixpoint write_items `{Float64} (arr : list value) (output : string)
  : ToolResult :=
  match arr with
  | [] => Response output
  | VMap itemMap :: rest => write_items rest (output ++ record_line itemMap)
  | item :: _ => Panicked (InterfaceConversion (dynamicType item))
  end.

(** The header line, line 131. *)
Definition header `{Float64} (data : ResultData.t) : string :=
  "搜索结果(共" ++ Fmt.fmtInteger (ResultData.Total data) ++ "条):"
    ++ Fmt.LF.

(** The handler registered as [hunter_search]; [apiKey] is the flag of
    [main]. *)
Definition hunter_search `{Float64} (apiKey : string) (net : Http.Network)
  (arguments : HunterSearchArguments.t) : ToolResult :=
  let arguments := defaults arguments in
  let client := NewHunterClient apiKey in
  match Search net client
          (HunterSearchArguments.Query arguments)
          (HunterSearchArguments.Page arguments)
          (HunterSearchArguments.Size arguments)
          (HunterSearchArguments.IsWeb arguments)
          (HunterSearchArguments.StartTime arguments)
          (HunterSearchArguments.EndTime arguments) with
  | Err err => Failure err
  | Ok res =>
      match SearchResult.Data res with
      | None => Panicked NilDereference
      | Some data => write_items (ResultData.Arr data) (header data)
      end
  end.

(** [main], for the value [apiKey] of the flag after [flag.Parse]. *)
Definition main `{Float64} (apiKey : string)
  : Startup (Http.Network -> HunterSearchArguments.t -> ToolResult) :=
  if String.eqb apiKey EmptyString then
    Panic "API key is required, please provide it via --key parameter"
  else RegisterTool "hunter_search" "Hunter搜索引擎" (hunter_search apiKey).

End Hunter.

(** * Notions used in the statements *)

(** The 24-bit group of the encoder and its four sextets. *)
Definition pack (b0 b1 b2 : Z) : Z :=
  Z.lor (Z.lor (Z.shiftl b0 16) (Z.shiftl b1 8)) b2.

Definition sextet (val k : Z) : Z := Z.land (Z.shiftr val k) 63.

(** The alphabet decodes its own character at position [i], and that
    character is not the padding. *)
Definition decodes_at (enc : Base64.Encoding) (i : Z) : bool :=
  match Base64.decodeMap enc (byte_at (Base64.encode enc) i) with
  | Some j => j =? i
  | None => false
  end.

Definition pad_free_at (enc : Base64.Encoding) (i : Z) : bool :=
  negb (Ascii.eqb (byte_at (Base64.encode enc) i) (Base64.padChar enc)).

(** A query string written out pair by pair, keys as they are. *)
Definition query_string (pairs : list (string * string)) : string :=
  String.concat "&"
    (map (fun kv : string * string =>
            fst kv ++ "=" ++ Url.QueryEscape (snd kv)) pairs).

(** The call failed with an error of the decode kind. *)
Definition decode_failure {T : Type} (r : result T) : Prop :=
  exists e, r = Err e /\ kind_of e = DecodeError.

(** The text holds no ['%']. *)
Fixpoint percent_free (s : string) : bool :=
  match s with
  | EmptyString => true
  | String c rest => negb (Ascii.eqb c "%") && percent_free rest
  end.

(** No member under the key [data], or only [null] ones. *)
Definition data_missing_or_null (members : list (string * Json.json))
  : Prop :=
  forall key v, In (key, v) members ->
                Json.matches key "data" = true -> v = Json.JNull.

(** The record is a [map[string]interface{}], that is, comes from a
    JSON object. *)
Definition is_object `{Float64} (item : value) : bool :=
  match item with
  | VMap _ => true
  | _ => false
  end.

(** A sample [Float64] to run the model on concrete documents.  It knows
    the literals of the naturals below one million, which Go converts
    exactly and prints in plain decimal notation; it knows no other
    literal. *)
Definition small_literal (lit : string) : option Z :=
  match lit with
  | EmptyString => None
  | String c _ =>
      if Fmt.is_digit c then
        match Json.digits lit 0 with
        | Some n => if n <? 1000000 then Some n else None
        | None => None
        end
      else None
  end.

Definition SmallNumbers : Float64 :=
  {| float64 := Z; ParseFloat := small_literal;
     FormatFloat := Fmt.fmtInteger |}.

(** The network that answers every request with one response. *)
Definition answering (status : Z) (doc : Json.json) : Http.Network :=
  fun _ =>
    Http.GetOk {| Http.StatusCode := status;
                  Http.Body := Http.ReadOk (Json.Valid doc) |}.

(** ** Notions of the further properties *)

(** The bytes [QueryEscape] writes: unreserved characters, [+] and the
    [%XX] triples. *)
Definition query_safe (c : ascii) : bool :=
  in_range 97 122 c || in_range 65 90 c || in_range 48 57 c
  || Ascii.eqb c "-" || Ascii.eqb c "_" || Ascii.eqb c "." || Ascii.eqb c "~"
  || Ascii.eqb c "+" || Ascii.eqb c "%".

Fixpoint all_bytes (f : ascii -> bool) (s : string) : bool :=
  match s with
  | EmptyString => true
  | String c rest => f c && all_bytes f rest
  end.

Definition base64_std_byte (c : ascii) : bool :=
  in_range 97 122 c || in_range 65 90 c || in_range 48 57 c
  || Ascii.eqb c "+" || Ascii.eqb c "/" || Ascii.eqb c "=".

Definition base64_url_byte (c : ascii) : bool :=
  in_range 97 122 c || in_range 65 90 c || in_range 48 57 c
  || Ascii.eqb c "-" || Ascii.eqb c "_" || Ascii.eqb c "=".

(** The line of a FOFA row and of a Hunter record. *)
Definition fofa_line (item : list string) : string :=
  String.concat " | " item ++ Fmt.LF.

Definition hunter_line `{Float64} (item : value) : string :=
  match item with
  | VMap itemMap => Hunter.record_line itemMap
  | _ => EmptyString
  end.

(** Occurrences of a byte in a text. *)
Fixpoint count_byte (c : ascii) (s : string) : nat :=
  match s with
  | EmptyString => O
  | String c' rest => (if Ascii.eqb c' c then 1 else 0) + count_byte c rest
  end.

Definition line_feed : ascii := "010"%char.

(** The names of the fields of the two envelopes, from the [json] tags. *)
Definition fofa_fields : list string :=
  [ "error"; "errmsg"; "mode"; "page"; "size"; "results" ].

Definition hunter_fields : list string := [ "code"; "message"; "data" ].

(** The key selects none of the fields. *)
Definition selects_none (fields : list string) (key : string) : bool :=
  forallb (fun name => negb (Json.matches key name)) fields.

(** No member of the object is under a key that selects [name]. *)
Definition absent (name : string) (members : list (string * Json.json))
  : bool :=
  forallb (fun kv : string * Json.json => negb (Json.matches (fst kv) name))
          members.

(** The last member of an object under exactly the key [key]. *)
Fixpoint last_member (key : string) (members : list (string * Json.json))
  : option Json.json :=
  match members with
  | [] => None
  | (k, v) :: rest =>
      match last_member key rest with
      | Some x => Some x
      | None => if String.eqb k key then Some v else None
      end
  end.

Definition unreserved (c : ascii) : bool := negb (Url.shouldEscape c).

(** A row of [results] that decodes: an array or [null]. *)
Definition is_row (v : Json.json) : bool :=
  match v with
  | Json.JArray _ | Json.JNull => true
  | _ => false
  end.

(** * Properties *)

(** ** Query encoding *)

Lemma byte_val_range (c : ascii) : 0 <= byte_val c < 256.
Proof.
  unfold byte_val. pose proof (N_ascii_bounded c) as Hb. lia.
Qed.

Lemma byte_val_mask (c : ascii) : Z.land (byte_val c) 255 = byte_val c.
Proof.
  change 255 with (Z.ones 8). rewrite Z.land_ones by lia.
  apply Z.mod_small. apply byte_val_range.
Qed.

Lemma to_byte_val (c : ascii) (v : Z) :
  Z.land v 255 = Z.land (byte_val c) 255 -> to_byte v = c.
Proof.
  intros Hv. unfold to_byte. rewrite Hv, byte_val_mask.
  unfold byte_val. rewrite N2Z.id. apply ascii_N_embedding.
Qed.

Lemma sextet_range (v : Z) : 0 <= Z.land v 63 < 64.
Proof.
  change 63 with (Z.ones 6). rewrite Z.land_ones by lia.
  apply Z.mod_pos_bound. lia.
Qed.

Ltac bits :=
  unfold pack, sextet, Base64.quantum;
  change 255 with (Z.ones 8); change 63 with (Z.ones 6);
  Z.bitblast.

Lemma quantum_sextets (val : Z) :
  Base64.quantum (sextet val 18) (sextet val 12) (sextet val 6) (Z.land val 63)
  = Z.land val (Z.ones 24).
Proof. bits. Qed.

Lemma group_byte0 (b0 b1 b2 : Z) :
  Z.land (Z.shiftr (Z.land (pack (Z.land b0 255) (Z.land b1 255)
                                 (Z.land b2 255)) (Z.ones 24)) 16) 255
  = Z.land b0 255.
Proof. bits. Qed.

Lemma group_byte1 (b0 b1 b2 : Z) :
  Z.land (Z.shiftr (Z.land (pack (Z.land b0 255) (Z.land b1 255)
                                 (Z.land b2 255)) (Z.ones 24)) 8) 255
  = Z.land b1 255.
Proof. bits. Qed.

Lemma group_byte2 (b0 b1 b2 : Z) :
  Z.land (Z.land (pack (Z.land b0 255) (Z.land b1 255) (Z.land b2 255))
                 (Z.ones 24)) 255
  = Z.land b2 255.
Proof. bits. Qed.

Lemma low_sextet_two_bytes (b0 b1 : Z) :
  Z.land (pack (Z.land b0 255) (Z.land b1 255) 0) 63 = 0.
Proof. bits. Qed.

Lemma low_sextets_one_byte (b0 : Z) :
  sextet (pack (Z.land b0 255) 0 0) 6 = 0
  /\ Z.land (pack (Z.land b0 255) 0 0) 63 = 0.
Proof. split; bits. Qed.

Lemma quantum_one_byte (b0 : Z) :
  let val := pack (Z.land b0 255) 0 0 in
  Base64.quantum (sextet val 18) (sextet val 12) 0 0
  = Z.land (pack (Z.land b0 255) (Z.land 0 255) (Z.land 0 255)) (Z.ones 24).
Proof.
  intros val. change (Z.land 0 255) with 0. fold val.
  rewrite <- quantum_sextets. subst val.
  destruct (low_sextets_one_byte b0) as [-> ->]. reflexivity.
Qed.

Lemma quantum_two_bytes (b0 b1 : Z) :
  let val := pack (Z.land b0 255) (Z.land b1 255) 0 in
  Base64.quantum (sextet val 18) (sextet val 12) (sextet val 6) 0
  = Z.land (pack (Z.land b0 255) (Z.land b1 255) (Z.land 0 255)) (Z.ones 24).
Proof.
  intros val. change (Z.land 0 255) with 0. fold val.
  rewrite <- quantum_sextets. subst val.
  now rewrite low_sextet_two_bytes.
Qed.

Lemma pack_bytes (b0 b1 b2 : ascii) :
  pack (byte_val b0) (byte_val b1) (byte_val b2)
  = pack (Z.land (byte_val b0) 255) (Z.land (byte_val b1) 255)
         (Z.land (byte_val b2) 255).
Proof. now rewrite !byte_val_mask. Qed.

Section Base64RoundTrip.

Variable enc : Base64.Encoding.

Hypothesis alphabet_decodes :
  forall i, 0 <= i < 64 ->
    Base64.decodeMap enc (byte_at (Base64.encode enc) i) = Some i.

Hypothesis alphabet_without_pad :
  forall i, 0 <= i < 64 ->
    Ascii.eqb (byte_at (Base64.encode enc) i) (Base64.padChar enc) = false.

Let chr (v : Z) : ascii := byte_at (Base64.encode enc) v.

Lemma decode_sextet (val k : Z) :
  Base64.decodeMap enc (chr (sextet val k)) = Some (sextet val k).
Proof. apply alphabet_decodes, sextet_range. Qed.

Lemma decode_low_sextet (val : Z) :
  Base64.decodeMap enc (chr (Z.land val 63)) = Some (Z.land val 63).
Proof. apply alphabet_decodes, sextet_range. Qed.

Lemma encode_one (b0 : ascii) :
  Base64.EncodeToString enc (String b0 EmptyString)
  = let val := pack (byte_val b0) 0 0 in
    String (chr (sextet val 18)) (String (chr (sextet val 12))
      (String (Base64.padChar enc)
         (String (Base64.padChar enc) EmptyString))).
Proof.
  unfold pack. rewrite Z.shiftl_0_l, !Z.lor_0_r. reflexivity.
Qed.

Lemma encode_two (b0 b1 : ascii) :
  Base64.EncodeToString enc (String b0 (String b1 EmptyString))
  = let val := pack (byte_val b0) (byte_val b1) 0 in
    String (chr (sextet val 18)) (String (chr (sextet val 12))
      (String (chr (sextet val 6))
         (String (Base64.padChar enc) EmptyString))).
Proof.
  unfold pack. rewrite Z.lor_0_r. reflexivity.
Qed.

Lemma encode_three (b0 b1 b2 : ascii) (rest : string) :
  Base64.EncodeToString enc (String b0 (String b1 (String b2 rest)))
  = let val := pack (byte_val b0) (byte_val b1) (byte_val b2) in
    String (chr (sextet val 18)) (String (chr (sextet val 12))
      (String (chr (sextet val 6)) (String (chr (Z.land val 63))
         (Base64.EncodeToString enc rest)))).
Proof. reflexivity. Qed.

Lemma decode_one (b0 : ascii) :
  Base64.DecodeString enc
    (Base64.EncodeToString enc (String b0 EmptyString))
  = Some (String b0 EmptyString).
Proof.
  rewrite encode_one. cbv zeta. cbn [Base64.DecodeString].
  rewrite !decode_sextet, !Ascii.eqb_refl.
  rewrite <- (byte_val_mask b0) at 1 2.
  rewrite (quantum_one_byte (byte_val b0)).
  do 2 f_equal. apply to_byte_val, group_byte0.
Qed.

Lemma decode_two (b0 b1 : ascii) :
  Base64.DecodeString enc
    (Base64.EncodeToString enc (String b0 (String b1 EmptyString)))
  = Some (String b0 (String b1 EmptyString)).
Proof.
  rewrite encode_two. cbv zeta. cbn [Base64.DecodeString].
  rewrite !decode_sextet, Ascii.eqb_refl.
  unfold chr at 1. rewrite alphabet_without_pad by apply sextet_range.
  rewrite <- (byte_val_mask b0), <- (byte_val_mask b1).
  rewrite (quantum_two_bytes (byte_val b0) (byte_val b1)).
  rewrite !byte_val_mask.
  f_equal. f_equal; [ | f_equal ]; apply to_byte_val.
  - rewrite <- (byte_val_mask b0) at 1. rewrite <- (byte_val_mask b1).
    apply group_byte0.
  - rewrite <- (byte_val_mask b0). rewrite <- (byte_val_mask b1) at 1.
    apply group_byte1.
Qed.

Lemma decode_three (b0 b1 b2 : ascii) (rest : string) :
  Base64.DecodeString enc (Base64.EncodeToString enc rest) = Some rest ->
  Base64.DecodeString enc
    (Base64.EncodeToString enc (String b0 (String b1 (String b2 rest))))
  = Some (String b0 (String b1 (String b2 rest))).
Proof.
  intros IH. rewrite encode_three. cbv zeta. cbn [Base64.DecodeString].
  rewrite !decode_sextet, decode_low_sextet, IH.
  unfold chr at 1. rewrite alphabet_without_pad by apply sextet_range.
  rewrite quantum_sextets, pack_bytes.
  f_equal. f_equal; [ | f_equal; [ | f_equal ] ]; apply to_byte_val.
  - apply group_byte0.
  - apply group_byte1.
  - apply group_byte2.
Qed.

Lemma decode_encode (s : string) :
  Base64.DecodeString enc (Base64.EncodeToString enc s) = Some s.
Proof.
  enough (H : Base64.DecodeString enc (Base64.EncodeToString enc s) = Some s
              /\ (forall a, Base64.DecodeString enc
                    (Base64.EncodeToString enc (String a s))
                  = Some (String a s))
              /\ (forall a b, Base64.DecodeString enc
                    (Base64.EncodeToString enc (String a (String b s)))
                  = Some (String a (String b s)))) by apply H.
  induction s as [ | c s (IH0 & IH1 & IH2) ].
  - split; [ reflexivity | split ]; intros.
    + apply decode_one.
    + apply decode_two.
  - split; [ apply IH1 | split ]; intros.
    + apply IH2.
    + now apply decode_three.
Qed.

End Base64RoundTrip.

(** A property checked on each of the 64 sextets holds of every sextet. *)
Lemma every_sextet (f : Z -> bool) :
  forallb f (map Z.of_nat (seq 0 64)) = true ->
  forall i, 0 <= i < 64 -> f i = true.
Proof.
  intros Hall i Hi. rewrite forallb_forall in Hall. apply Hall.
  apply in_map_iff. exists (Z.to_nat i). split; [ lia | ].
  apply in_seq. lia.
Qed.

Lemma alphabet_decodes (enc : Base64.Encoding) :
  forallb (decodes_at enc) (map Z.of_nat (seq 0 64)) = true ->
  forall i, 0 <= i < 64 ->
    Base64.decodeMap enc (byte_at (Base64.encode enc) i) = Some i.
Proof.
  intros Hall i Hi. pose proof (every_sextet _ Hall i Hi) as H.
  unfold decodes_at in H.
  destruct (Base64.decodeMap enc (byte_at (Base64.encode enc) i));
    [ | discriminate ].
  apply Z.eqb_eq in H. now subst.
Qed.

Lemma alphabet_without_pad (enc : Base64.Encoding) :
  forallb (pad_free_at enc) (map Z.of_nat (seq 0 64)) = true ->
  forall i, 0 <= i < 64 ->
    Ascii.eqb (byte_at (Base64.encode enc) i) (Base64.padChar enc) = false.
Proof.
  intros Hall i Hi. pose proof (every_sextet _ Hall i Hi) as H.
  unfold pad_free_at in H. now apply negb_true_iff in H.
Qed.

Lemma StdEncoding_round_trip (s : string) :
  Base64.DecodeString Base64.StdEncoding
    (Base64.EncodeToString Base64.StdEncoding s) = Some s.
Proof.
  apply decode_encode.
  - apply alphabet_decodes. vm_compute. reflexivity.
  - apply alphabet_without_pad. vm_compute. reflexivity.
Qed.

Lemma URLEncoding_round_trip (s : string) :
  Base64.DecodeString Base64.URLEncoding
    (Base64.EncodeToString Base64.URLEncoding s) = Some s.
Proof.
  apply decode_encode.
  - apply alphabet_decodes. vm_compute. reflexivity.
  - apply alphabet_without_pad. vm_compute. reflexivity.
Qed.

(** C7.  Decoding the encoded query parameter with the backend's own
    scheme gives back the raw query: standard base64 for the [qbase64]
    parameter of FOFA, URL-safe base64 for the [search] parameter of
    Hunter. *)
Theorem query_encoding_round_trip (query : string) :
  Base64.DecodeString Base64.StdEncoding (Fofa.base64Encode query)
    = Some query
  /\ Base64.DecodeString Base64.URLEncoding (Hunter.base64URLEncode query)
    = Some query.
Proof.
  split.
  - apply StdEncoding_round_trip.
  - apply URLEncoding_round_trip.
Qed.

(** The two schemes are not interchangeable. *)
Example encodings_differ :
  Fofa.base64Encode "??>" = "Pz8+"
  /\ Hunter.base64URLEncode "??>" = "Pz8-"
  /\ Base64.DecodeString Base64.StdEncoding (Hunter.base64URLEncode "??>")
     = None.
Proof. repeat split; reflexivity. Qed.

(** ** Defaulting *)

Lemma fofa_defaults_fields (a : Fofa.FofaSearchArguments.t) :
  Fofa.defaults a
  = {| Fofa.FofaSearchArguments.Query := Fofa.FofaSearchArguments.Query a;
       Fofa.FofaSearchArguments.Page :=
         if Fofa.FofaSearchArguments.Page a =? 0 then 1
         else Fofa.FofaSearchArguments.Page a;
       Fofa.FofaSearchArguments.Size :=
         if Fofa.FofaSearchArguments.Size a =? 0 then 50
         else Fofa.FofaSearchArguments.Size a;
       Fofa.FofaSearchArguments.Fields := Fofa.FofaSearchArguments.Fields a |}.
Proof.
  destruct a as [q p s f]. unfold Fofa.defaults. cbn.
  destruct (p =? 0); cbn; destruct (s =? 0); reflexivity.
Qed.

Lemma hunter_defaults_fields (a : Hunter.HunterSearchArguments.t) :
  Hunter.defaults a
  = {| Hunter.HunterSearchArguments.Query :=
         Hunter.HunterSearchArguments.Query a;
       Hunter.HunterSearchArguments.Page :=
         if Hunter.HunterSearchArguments.Page a =? 0 then 1
         else Hunter.HunterSearchArguments.Page a;
       Hunter.HunterSearchArguments.Size :=
         if Hunter.HunterSearchArguments.Size a =? 0 then 20
         else Hunter.HunterSearchArguments.Size a;
       Hunter.HunterSearchArguments.IsWeb :=
         if Hunter.HunterSearchArguments.IsWeb a =? 0 then 1
         else Hunter.HunterSearchArguments.IsWeb a;
       Hunter.HunterSearchArguments.StartTime :=
         Hunter.HunterSearchArguments.StartTime a;
       Hunter.HunterSearchArguments.EndTime :=
         Hunter.HunterSearchArguments.EndTime a |}.
Proof.
  destruct a as [q p s w st et]. unfold Hunter.defaults. cbn.
  destruct (p =? 0); cbn; destruct (s =? 0); cbn; destruct (w =? 0);
    reflexivity.
Qed.

(** C1, as the code has it.  Defaulting tests each argument against zero
    and on its own: [page] becomes 1 exactly when it is 0, [size] becomes
    the default of the backend (50 for [fofa_search], 20 for
    [hunter_search]) exactly when it is 0, and any other value, a negative
    one included, stays.  Hence arguments with [page >= 1] and [size >= 1]
    keep their page and size. *)
Theorem defaulting_tests_zero
  (a : Fofa.FofaSearchArguments.t) (b : Hunter.HunterSearchArguments.t) :
  (Fofa.FofaSearchArguments.Page (Fofa.defaults a)
     = (if Fofa.FofaSearchArguments.Page a =? 0 then 1
        else Fofa.FofaSearchArguments.Page a)
   /\ Fofa.FofaSearchArguments.Size (Fofa.defaults a)
     = (if Fofa.FofaSearchArguments.Size a =? 0 then 50
        else Fofa.FofaSearchArguments.Size a))
  /\ (Hunter.HunterSearchArguments.Page (Hunter.defaults b)
        = (if Hunter.HunterSearchArguments.Page b =? 0 then 1
           else Hunter.HunterSearchArguments.Page b)
      /\ Hunter.HunterSearchArguments.Size (Hunter.defaults b)
        = (if Hunter.HunterSearchArguments.Size b =? 0 then 20
           else Hunter.HunterSearchArguments.Size b))
  /\ (1 <= Fofa.FofaSearchArguments.Page a ->
      1 <= Fofa.FofaSearchArguments.Size a ->
      Fofa.FofaSearchArguments.Page (Fofa.defaults a)
        = Fofa.FofaSearchArguments.Page a
      /\ Fofa.FofaSearchArguments.Size (Fofa.defaults a)
        = Fofa.FofaSearchArguments.Size a)
  /\ (1 <= Hunter.HunterSearchArguments.Page b ->
      1 <= Hunter.HunterSearchArguments.Size b ->
      Hunter.HunterSearchArguments.Page (Hunter.defaults b)
        = Hunter.HunterSearchArguments.Page b
      /\ Hunter.HunterSearchArguments.Size (Hunter.defaults b)
        = Hunter.HunterSearchArguments.Size b).
Proof.
  rewrite fofa_defaults_fields, hunter_defaults_fields. cbn.
  repeat split; try reflexivity.
  - destruct (Z.eqb_spec (Fofa.FofaSearchArguments.Page a) 0); lia.
  - destruct (Z.eqb_spec (Fofa.FofaSearchArguments.Size a) 0); lia.
  - destruct (Z.eqb_spec (Hunter.HunterSearchArguments.Page b) 0); lia.
  - destruct (Z.eqb_spec (Hunter.HunterSearchArguments.Size b) 0); lia.
Qed.

(** C1 at concrete arguments: page 3 and size 10 stay, for both tools. *)
Lemma defaulting_tests_zero_witness :
  let a := {| Fofa.FofaSearchArguments.Query := "port=80";
              Fofa.FofaSearchArguments.Page := 3;
              Fofa.FofaSearchArguments.Size := 10;
              Fofa.FofaSearchArguments.Fields := "ip,port" |} in
  let b := {| Hunter.HunterSearchArguments.Query := "ip.port=80";
              Hunter.HunterSearchArguments.Page := 3;
              Hunter.HunterSearchArguments.Size := 10;
              Hunter.HunterSearchArguments.IsWeb := 3;
              Hunter.HunterSearchArguments.StartTime := EmptyString;
              Hunter.HunterSearchArguments.EndTime := EmptyString |} in
  (Fofa.FofaSearchArguments.Page (Fofa.defaults a) = 3
   /\ Fofa.FofaSearchArguments.Size (Fofa.defaults a) = 10)
  /\ (Hunter.HunterSearchArguments.Page (Hunter.defaults b) = 3
      /\ Hunter.HunterSearchArguments.Size (Hunter.defaults b) = 10).
Proof.
  intros a b.
  destruct (defaulting_tests_zero a b) as (_ & _ & Hf & Hh).
  split; [ apply Hf | apply Hh ]; cbn; lia.
Defined.

(** C1 as stated fails: a negative page is below 1 and is not replaced by
    1, and a zero page does not bring the size to its default. *)
Lemma defaulting_keeps_negative_page :
  let a := {| Fofa.FofaSearchArguments.Query := "port=80";
              Fofa.FofaSearchArguments.Page := -1;
              Fofa.FofaSearchArguments.Size := 10;
              Fofa.FofaSearchArguments.Fields := "ip,port" |} in
  let b := {| Hunter.HunterSearchArguments.Query := "ip.port=80";
              Hunter.HunterSearchArguments.Page := 0;
              Hunter.HunterSearchArguments.Size := 10;
              Hunter.HunterSearchArguments.IsWeb := 1;
              Hunter.HunterSearchArguments.StartTime := EmptyString;
              Hunter.HunterSearchArguments.EndTime := EmptyString |} in
  (Fofa.FofaSearchArguments.Page a < 1
   /\ ~ (Fofa.FofaSearchArguments.Page (Fofa.defaults a) = 1
         /\ Fofa.FofaSearchArguments.Size (Fofa.defaults a) = 50))
  /\ (Hunter.HunterSearchArguments.Page b < 1
      /\ ~ (Hunter.HunterSearchArguments.Page (Hunter.defaults b) = 1
            /\ Hunter.HunterSearchArguments.Size (Hunter.defaults b) = 20)).
Proof.
  cbn. repeat split; try lia; intros [H1 H2]; discriminate.
Qed.

(** C8.  Defaulting twice gives the arguments, and so the request, that
    defaulting once gives, for both tools. *)
Theorem defaulting_idempotent
  (a : Fofa.FofaSearchArguments.t) (b : Hunter.HunterSearchArguments.t) :
  Fofa.defaults (Fofa.defaults a) = Fofa.defaults a
  /\ Hunter.defaults (Hunter.defaults b) = Hunter.defaults b.
Proof.
  split.
  - rewrite (fofa_defaults_fields (Fofa.defaults a)).
    rewrite (fofa_defaults_fields a). cbn.
    destruct (Z.eqb_spec (Fofa.FofaSearchArguments.Page a) 0) as [ | Hp ],
             (Z.eqb_spec (Fofa.FofaSearchArguments.Size a) 0) as [ | Hs ];
      cbn;
      try (apply Z.eqb_neq in Hp; rewrite Hp);
      try (apply Z.eqb_neq in Hs; rewrite Hs);
      reflexivity.
  - rewrite (hunter_defaults_fields (Hunter.defaults b)).
    rewrite (hunter_defaults_fields b). cbn.
    destruct (Z.eqb_spec (Hunter.HunterSearchArguments.Page b) 0) as [ | Hp ],
             (Z.eqb_spec (Hunter.HunterSearchArguments.Size b) 0) as [ | Hs ],
             (Z.eqb_spec (Hunter.HunterSearchArguments.IsWeb b) 0) as [ | Hw ];
      cbn;
      try (apply Z.eqb_neq in Hp; rewrite Hp);
      try (apply Z.eqb_neq in Hs; rewrite Hs);
      try (apply Z.eqb_neq in Hw; rewrite Hw);
      reflexivity.
Qed.

(** ** The request URL *)

Lemma string_app_assoc (s1 s2 s3 : string) :
  (s1 ++ s2) ++ s3 = s1 ++ (s2 ++ s3).
Proof.
  induction s1 as [ | c s1 IH ]; cbn; [ reflexivity | now rewrite IH ].
Qed.

Lemma string_app_nil_r (s : string) : s ++ EmptyString = s.
Proof.
  induction s as [ | c s IH ]; cbn; [ reflexivity | now rewrite IH ].
Qed.

Lemma string_app_length (s1 s2 : string) :
  String.length (s1 ++ s2) = (String.length s1 + String.length s2)%nat.
Proof.
  induction s1 as [ | c s1 IH ]; cbn; [ reflexivity | now rewrite IH ].
Qed.

Lemma write_pair_first (k v : string) :
  Url.write_pair k EmptyString v = k ++ "=" ++ Url.QueryEscape v.
Proof. reflexivity. Qed.

Lemma write_pair_length (k buf v : string) :
  (String.length (Url.write_pair k buf v) =? 0)%nat = false.
Proof.
  unfold Url.write_pair. rewrite !string_app_length. cbn.
  apply Nat.eqb_neq. lia.
Qed.

Lemma write_pair_next (k k' buf v v' : string) :
  Url.write_pair k (Url.write_pair k' buf v') v
  = Url.write_pair k' buf v' ++ "&" ++ k ++ "=" ++ Url.QueryEscape v.
Proof.
  unfold Url.write_pair at 1. rewrite write_pair_length.
  now rewrite !string_app_assoc.
Qed.

Ltac encode_pairs :=
  unfold Url.Encode;
  cbn -[Url.write_pair Url.QueryEscape Fmt.fmtInteger
        Fofa.base64Encode Hunter.base64URLEncode];
  rewrite ?write_pair_next, write_pair_first;
  unfold query_string;
  cbn -[Url.QueryEscape Fmt.fmtInteger
        Fofa.base64Encode Hunter.base64URLEncode];
  rewrite ?string_app_assoc;
  cbn -[Url.QueryEscape Fmt.fmtInteger
        Fofa.base64Encode Hunter.base64URLEncode].

Lemma fofa_requestURL (fc : Fofa.FofaClient.t) (query : string)
  (page size : Z) (fields : string) :
  Fofa.requestURL fc query page size fields
  = Fofa.FofaClient.BaseURL fc ++ "/search/all?"
      ++ query_string
           [ ("email", Fofa.FofaClient.Email fc);
             ("fields", fields);
             ("key", Fofa.FofaClient.Key fc);
             ("page", Fmt.fmtInteger page);
             ("qbase64", Fofa.base64Encode query);
             ("size", Fmt.fmtInteger size) ].
Proof.
  unfold Fofa.requestURL, Fofa.params. do 2 f_equal.
  encode_pairs. reflexivity.
Qed.

Lemma hunter_requestURL (hc : Hunter.HunterClient.t) (query : string)
  (page size isWeb : Z) (startTime endTime : string) :
  Hunter.requestURL hc query page size isWeb startTime endTime
  = Hunter.HunterClient.BaseURL hc ++ "?"
      ++ query_string
           ([ ("api-key", Hunter.HunterClient.APIKey hc) ]
            ++ (if String.eqb endTime EmptyString then []
                else [ ("end_time", endTime) ])
            ++ [ ("is_web", Fmt.fmtInteger isWeb);
                 ("page", Fmt.fmtInteger page);
                 ("page_size", Fmt.fmtInteger size);
                 ("search", Hunter.base64URLEncode query) ]
            ++ (if String.eqb startTime EmptyString then []
                else [ ("start_time", startTime) ]))%list.
Proof.
  unfold Hunter.requestURL, Hunter.params. do 2 f_equal.
  destruct (String.eqb startTime EmptyString),
           (String.eqb endTime EmptyString);
    encode_pairs; reflexivity.
Qed.

(** C6, as the code has it.  [hunter_search] leaves an empty [start_time]
    or [end_time] out of the request and sends a set one with its value;
    [fofa_search] omits nothing: [fields] is sent whatever it is, so an
    empty selector goes out as [fields=]. *)
Theorem optional_parameters_in_request
  (hc : Hunter.HunterClient.t) (fc : Fofa.FofaClient.t) (query : string)
  (page size isWeb : Z) (startTime endTime fields : string) :
  Url.lookup (Hunter.params hc query page size isWeb startTime endTime)
             "start_time"
    = (if String.eqb startTime EmptyString then None else Some [startTime])
  /\ Url.lookup (Hunter.params hc query page size isWeb startTime endTime)
                "end_time"
    = (if String.eqb endTime EmptyString then None else Some [endTime])
  /\ Hunter.requestURL hc query page size isWeb startTime endTime
    = Hunter.HunterClient.BaseURL hc ++ "?"
        ++ query_string
             ([ ("api-key", Hunter.HunterClient.APIKey hc) ]
              ++ (if String.eqb endTime EmptyString then []
                  else [ ("end_time", endTime) ])
              ++ [ ("is_web", Fmt.fmtInteger isWeb);
                   ("page", Fmt.fmtInteger page);
                   ("page_size", Fmt.fmtInteger size);
                   ("search", Hunter.base64URLEncode query) ]
              ++ (if String.eqb startTime EmptyString then []
                  else [ ("start_time", startTime) ]))%list
  /\ Url.lookup (Fofa.params fc query page size fields) "fields"
    = Some [fields]
  /\ Fofa.requestURL fc query page size fields
    = Fofa.FofaClient.BaseURL fc ++ "/search/all?"
        ++ query_string
             [ ("email", Fofa.FofaClient.Email fc);
               ("fields", fields);
               ("key", Fofa.FofaClient.Key fc);
               ("page", Fmt.fmtInteger page);
               ("qbase64", Fofa.base64Encode query);
               ("size", Fmt.fmtInteger size) ].
Proof.
  split; [ | split; [ | split; [ | split ] ] ].
  - unfold Hunter.params.
    destruct (String.eqb startTime EmptyString),
             (String.eqb endTime EmptyString); reflexivity.
  - unfold Hunter.params.
    destruct (String.eqb startTime EmptyString),
             (String.eqb endTime EmptyString); reflexivity.
  - apply hunter_requestURL.
  - reflexivity.
  - apply fofa_requestURL.
Qed.

(** C6 as stated fails for [fofa_search]: with no field selector the
    request still carries the [fields] parameter, with an empty value. *)
Lemma fofa_sends_empty_fields :
  Url.lookup (Fofa.params (Fofa.NewFofaClient "a@b.c" "k") "port=80" 1 50
                          EmptyString) "fields"
    = Some [EmptyString]
  /\ Fofa.requestURL (Fofa.NewFofaClient "a@b.c" "k") "port=80" 1 50
                     EmptyString
    = "https://fofa.info/api/v1/search/all?email=a%40b.c&fields=&key=k&page=1&qbase64=cG9ydD04MA%3D%3D&size=50".
Proof. split; reflexivity. Qed.

(** ** Failures *)

(** Induction over a JSON document, with the property available for the
    elements of an array and the members of an object. *)
Lemma json_induction (P : Json.json -> Prop) :
  P Json.JNull ->
  (forall b, P (Json.JBool b)) ->
  (forall lit, P (Json.JNumber lit)) ->
  (forall s, P (Json.JString s)) ->
  (forall elems, Forall P elems -> P (Json.JArray elems)) ->
  (forall members,
      Forall (fun kv : string * Json.json => P (snd kv)) members ->
      P (Json.JObject members)) ->
  forall v, P v.
Proof.
  intros Hnull Hbool Hnum Hstr Harr Hobj.
  fix IH 1. intros [ | b | lit | s | elems | members ].
  - exact Hnull.
  - apply Hbool.
  - apply Hnum.
  - apply Hstr.
  - apply Harr.
    refine ((fix all (l : list Json.json) : Forall P l :=
               match l with
               | [] => Forall_nil P
               | x :: rest => Forall_cons x (IH x) (all rest)
               end) elems).
  - apply Hobj.
    refine ((fix all (l : list (string * Json.json))
               : Forall (fun kv => P (snd kv)) l :=
               match l with
               | [] => Forall_nil _
               | kv :: rest => Forall_cons kv (IH (snd kv)) (all rest)
               end) members).
Qed.

Lemma unmarshal_bool_error (cur : bool) (v : Json.json) (e : error) :
  Json.unmarshal_bool cur v = Err e -> kind_of e = DecodeError.
Proof. destruct v; cbn; intros H; inversion H; reflexivity. Qed.

Lemma unmarshal_string_error (cur : string) (v : Json.json) (e : error) :
  Json.unmarshal_string cur v = Err e -> kind_of e = DecodeError.
Proof. destruct v; cbn; intros H; inversion H; reflexivity. Qed.

Lemma unmarshal_int_error (cur : Z) (v : Json.json) (e : error) :
  Json.unmarshal_int cur v = Err e -> kind_of e = DecodeError.
Proof.
  destruct v; cbn; try (intros H; inversion H; reflexivity).
  destruct (Json.ParseInt lit); intros H; inversion H; reflexivity.
Qed.

Lemma traverse_error {A B : Type} (f : A -> result B) (l : list A)
  (e : error) :
  (forall x e', f x = Err e' -> kind_of e' = DecodeError) ->
  Json.traverse f l = Err e -> kind_of e = DecodeError.
Proof.
  intros Hf. induction l as [ | x rest IH ]; cbn; [ discriminate | ].
  destruct (f x) as [ y | e' ] eqn:Hx.
  - destruct (Json.traverse f rest); [ discriminate | ].
    intros H; inversion H; subst. now apply IH.
  - intros H; inversion H; subst. now apply (Hf x).
Qed.

Lemma unmarshal_slice_error {A : Type} (elem : A -> Json.json -> result A)
  (zero : A) (type_name : string) (v : Json.json) (e : error) :
  (forall cur x e', elem cur x = Err e' -> kind_of e' = DecodeError) ->
  Json.unmarshal_slice elem zero type_name v = Err e ->
  kind_of e = DecodeError.
Proof.
  intros Helem. destruct v; cbn; try (intros H; inversion H; reflexivity).
  apply traverse_error. intros x e'. apply Helem.
Qed.

Lemma object_error {T : Type} (set_field : T -> string -> Json.json -> result T)
  (members : list (string * Json.json)) :
  (forall cur key v e, set_field cur key v = Err e ->
                       kind_of e = DecodeError) ->
  forall cur e, Json.object set_field cur members = Err e ->
                kind_of e = DecodeError.
Proof.
  intros Hset. induction members as [ | [key v] rest IH ]; intros cur e; cbn.
  - discriminate.
  - destruct (set_field cur key v) as [ cur' | e' ] eqn:Hs.
    + apply IH.
    + intros H; inversion H; subst. now apply (Hset cur key v).
Qed.

Lemma unmarshal_struct_error {T : Type}
  (set_field : T -> string -> Json.json -> result T) (type_name : string)
  (cur : T) (v : Json.json) (e : error) :
  (forall cur key v e, set_field cur key v = Err e ->
                       kind_of e = DecodeError) ->
  Json.unmarshal_struct set_field type_name cur v = Err e ->
  kind_of e = DecodeError.
Proof.
  intros Hset. destruct v; cbn; try (intros H; inversion H; reflexivity).
  now apply object_error.
Qed.

Lemma fofa_set_field_error (r : Fofa.SearchResult.t) (key : string)
  (v : Json.json) (e : error) :
  Fofa.SearchResult.set_field r key v = Err e -> kind_of e = DecodeError.
Proof.
  unfold Fofa.SearchResult.set_field.
  repeat match goal with
         | |- context [ if ?c then _ else _ ] => destruct c
         end;
    try discriminate.
  - destruct (Json.unmarshal_bool _ v) eqn:H; [ discriminate | ].
    intros E; inversion E; subst. eapply unmarshal_bool_error, H.
  - destruct (Json.unmarshal_string _ v) eqn:H; [ discriminate | ].
    intros E; inversion E; subst. eapply unmarshal_string_error, H.
  - destruct (Json.unmarshal_string _ v) eqn:H; [ discriminate | ].
    intros E; inversion E; subst. eapply unmarshal_string_error, H.
  - destruct (Json.unmarshal_int _ v) eqn:H; [ discriminate | ].
    intros E; inversion E; subst. eapply unmarshal_int_error, H.
  - destruct (Json.unmarshal_int _ v) eqn:H; [ discriminate | ].
    intros E; inversion E; subst. eapply unmarshal_int_error, H.
  - destruct (Json.unmarshal_slice _ _ _ v) eqn:H; [ discriminate | ].
    intros E; inversion E; subst.
    eapply unmarshal_slice_error; [ | exact H ].
    intros cur x e'. apply unmarshal_slice_error.
    intros cur' x' e''. apply unmarshal_string_error.
Qed.

Lemma fofa_unmarshal_error (body : Json.text) (e : error) :
  Fofa.Unmarshal body = Err e -> kind_of e = DecodeError.
Proof.
  destruct body as [ msg | doc ]; cbn.
  - intros H; inversion H; reflexivity.
  - apply unmarshal_struct_error. intros cur key v e'.
    apply fofa_set_field_error.
Qed.

(** Keys select fields without regard to case; a mistyped member is a
    decode error, and ends the handler with that error. *)
Example decoding_examples :
  Json.matches "Data" "data" = true
  /\ Json.matches "datas" "data" = false
  /\ Json.matches ("re" ++ String "197" (String "191" "ults")) "results"
     = true
  /\ Fofa.Unmarshal
       (Json.Valid (Json.JObject [ ("ERROR", Json.JBool true);
                                   ("errmsg", Json.JNull) ]))
     = Ok {| Fofa.SearchResult.Error := true;
             Fofa.SearchResult.ErrMsg := EmptyString;
             Fofa.SearchResult.Mode := EmptyString;
             Fofa.SearchResult.Page := 0;
             Fofa.SearchResult.Size := 0;
             Fofa.SearchResult.Results := [] |}
  /\ Fofa.Unmarshal
       (Json.Valid (Json.JObject [ ("page", Json.JNumber "1.5") ]))
     = Err (UnmarshalTypeError "number 1.5" "int")
  /\ Fofa.fofa_search "a@b.c" "k"
       (answering 200
          (Json.JObject [ ("results", Json.JArray [ Json.JString "row" ]) ]))
       {| Fofa.FofaSearchArguments.Query := "port=80";
          Fofa.FofaSearchArguments.Page := 1;
          Fofa.FofaSearchArguments.Size := 50;
          Fofa.FofaSearchArguments.Fields := "ip" |}
     = Failure (UnmarshalTypeError "string" "[]string").
Proof. repeat split. Qed.

Section HunterDecoding.

Context `{Float64}.

Lemma valueInterface_error (v : Json.json) :
  forall e, Json.valueInterface v = Err e -> kind_of e = DecodeError.
Proof.
  induction v as [ | b | lit | s | elems IH | members IH ]
    using json_induction; intros e; cbn; try discriminate.
  - destruct (ParseFloat lit); intros E; inversion E; reflexivity.
  - match goal with
    | |- match ?array elems with _ => _ end = _ -> _ =>
        assert (Hl : forall e', array elems = Err e' ->
                                kind_of e' = DecodeError)
    end.
    { induction IH as [ | x rest Hx _ IHrest ]; intros e';
        [ discriminate | ].
      destruct (Json.valueInterface x) as [ y | ex ] eqn:Ex.
      - match goal with
        | |- match ?r with _ => _ end = _ -> _ => destruct r eqn:Er
        end; [ discriminate | ].
        intros E; inversion E; subst. now apply IHrest.
      - intros E; inversion E; subst. now apply Hx. }
    match goal with
    | |- match ?r with _ => _ end = _ -> _ => destruct r eqn:Er
    end; [ discriminate | ].
    intros E; inversion E; subst. now apply Hl.
  - match goal with
    | |- match ?object members ?m with _ => _ end = _ -> _ =>
        assert (Hl : forall m' e', object members m' = Err e' ->
                                   kind_of e' = DecodeError)
    end.
    { induction IH as [ | [key x] rest Hx _ IHrest ]; intros m' e';
        [ discriminate | ].
      cbn in Hx.
      destruct (Json.valueInterface x) as [ y | ex ] eqn:Ex.
      - apply IHrest.
      - intros E; inversion E; subst. now apply Hx. }
    match goal with
    | |- match ?r with _ => _ end = _ -> _ => destruct r eqn:Er
    end; [ discriminate | ].
    intros E; inversion E; subst. eapply Hl, Er.
Qed.

Lemma result_data_set_field_error (d : Hunter.ResultData.t) (key : string)
  (v : Json.json) (e : error) :
  Hunter.ResultData.set_field d key v = Err e -> kind_of e = DecodeError.
Proof.
  unfold Hunter.ResultData.set_field.
  repeat match goal with
         | |- context [ if ?c then _ else _ ] => destruct c
         end;
    try discriminate.
  - destruct (Json.unmarshal_int _ v) eqn:Hv; [ discriminate | ].
    intros E; inversion E; subst. eapply unmarshal_int_error, Hv.
  - destruct (Json.unmarshal_int _ v) eqn:Hv; [ discriminate | ].
    intros E; inversion E; subst. eapply unmarshal_int_error, Hv.
  - destruct (Json.unmarshal_slice _ _ _ v) eqn:Hv; [ discriminate | ].
    intros E; inversion E; subst.
    eapply unmarshal_slice_error; [ | exact Hv ].
    intros cur x e'. apply valueInterface_error.
  - destruct (Json.unmarshal_string _ v) eqn:Hv; [ discriminate | ].
    intros E; inversion E; subst. eapply unmarshal_string_error, Hv.
  - destruct (Json.unmarshal_string _ v) eqn:Hv; [ discriminate | ].
    intros E; inversion E; subst. eapply unmarshal_string_error, Hv.
Qed.

Lemma hunter_set_field_error (r : Hunter.SearchResult.t) (key : string)
  (v : Json.json) (e : error) :
  Hunter.SearchResult.set_field r key v = Err e -> kind_of e = DecodeError.
Proof.
  unfold Hunter.SearchResult.set_field.
  repeat match goal with
         | |- context [ if ?c then _ else _ ] => destruct c
         end;
    try discriminate.
  - destruct (Json.unmarshal_int _ v) eqn:Hv; [ discriminate | ].
    intros E; inversion E; subst. eapply unmarshal_int_error, Hv.
  - destruct (Json.unmarshal_string _ v) eqn:Hv; [ discriminate | ].
    intros E; inversion E; subst. eapply unmarshal_string_error, Hv.
  - unfold Json.unmarshal_ptr.
    destruct v; try discriminate;
      match goal with
      | |- match match ?r with _ => _ end with _ => _ end = _ -> _ =>
          destruct r eqn:Hv
      end; try discriminate;
      intros E; inversion E; subst;
      (eapply unmarshal_struct_error; [ | exact Hv ]);
      intros cur k x e'; apply result_data_set_field_error.
Qed.

Lemma hunter_unmarshal_error (body : Json.text) (e : error) :
  Hunter.Unmarshal body = Err e -> kind_of e = DecodeError.
Proof.
  destruct body as [ msg | doc ]; cbn.
  - intros E; inversion E; reflexivity.
  - apply unmarshal_struct_error. intros cur key v e'.
    apply hunter_set_field_error.
Qed.

End HunterDecoding.

(** C3, as the code has it.  [Search] never reads the status code: the
    body alone decides the outcome, whatever the status.  [Search] fails
    with a decode error exactly when the body does not decode (it is not
    JSON, or a member has the wrong JSON type); a response whose body
    decodes is handled in the same way under a 2xx and under any other
    status: FOFA returns the result, Hunter returns it when [code] is 200
    and a backend error otherwise. *)
Theorem status_code_is_not_read `{Float64}
  (net : Http.Network) (fc : Fofa.FofaClient.t) (hc : Hunter.HunterClient.t)
  (query : string) (page size isWeb : Z) (fields startTime endTime : string)
  (status : Z) (body : Json.text) :
  net (Fofa.requestURL fc query page size fields)
    = Http.GetOk {| Http.StatusCode := status;
                    Http.Body := Http.ReadOk body |} ->
  net (Hunter.requestURL hc query page size isWeb startTime endTime)
    = Http.GetOk {| Http.StatusCode := status;
                    Http.Body := Http.ReadOk body |} ->
  (Fofa.Search net fc query page size fields = Fofa.Unmarshal body
   /\ (decode_failure (Fofa.Search net fc query page size fields)
       <-> exists e, Fofa.Unmarshal body = Err e))
  /\ (Hunter.Search net hc query page size isWeb startTime endTime
        = match Hunter.Unmarshal body with
          | Err e => Err e
          | Ok res =>
              if Hunter.SearchResult.Code res =? 200 then Ok res
              else Err (Fmt.Errorf (Hunter.SearchResult.Message res))
          end
      /\ (decode_failure
            (Hunter.Search net hc query page size isWeb startTime endTime)
          <-> exists e, Hunter.Unmarshal body = Err e)).
Proof.
  intros Hf Hh.
  assert (Ef : Fofa.Search net fc query page size fields
               = Fofa.Unmarshal body).
  { unfold Fofa.Search. rewrite Hf. reflexivity. }
  assert (Eh : Hunter.Search net hc query page size isWeb startTime endTime
               = match Hunter.Unmarshal body with
                 | Err e => Err e
                 | Ok res =>
                     if Hunter.SearchResult.Code res =? 200 then Ok res
                     else Err (Fmt.Errorf (Hunter.SearchResult.Message res))
                 end).
  { unfold Hunter.Search. rewrite Hh. cbn.
    destruct (Hunter.Unmarshal body) as [ res | e ]; [ | reflexivity ].
    destruct (Hunter.SearchResult.Code res =? 200); reflexivity. }
  split; split; trivial.
  - rewrite Ef. split.
    + intros (e & He & _). now exists e.
    + intros (e & He). exists e. split; [ exact He | ].
      now apply (fofa_unmarshal_error body).
  - rewrite Eh. split.
    + intros (e & He & Hk).
      destruct (Hunter.Unmarshal body) as [ res | e' ]; [ | now exists e' ].
      destruct (Hunter.SearchResult.Code res =? 200); [ discriminate | ].
      inversion He; subst. discriminate.
    + intros (e & He). rewrite He. exists e. split; [ reflexivity | ].
      now apply (hunter_unmarshal_error body).
Qed.

(** C3 at a concrete response: status 502 with a body that is not JSON is
    a decode error for both clients. *)
Lemma status_code_is_not_read_witness :
  let net : Http.Network :=
    fun _ => Http.GetOk
               {| Http.StatusCode := 502;
                  Http.Body := Http.ReadOk
                    (Json.Invalid
                       "invalid character '<' looking for beginning of value")
               |} in
  decode_failure
    (Fofa.Search net (Fofa.NewFofaClient "a@b.c" "k") "port=80" 1 50 "ip")
  /\ decode_failure
       (@Hunter.Search SmallNumbers net (Hunter.NewHunterClient "k")
          "ip.port=80" 1 20 1 EmptyString EmptyString).
Proof.
  intros net.
  destruct (@status_code_is_not_read SmallNumbers net
              (Fofa.NewFofaClient "a@b.c" "k") (Hunter.NewHunterClient "k")
              "port=80" 1 50 1 "ip" EmptyString EmptyString 502
              (Json.Invalid
                 "invalid character '<' looking for beginning of value")
              eq_refl eq_refl)
    as ((_ & Hf) & (_ & Hh)).
  split.
  - apply Hf. eexists. reflexivity.
  - apply Hh. eexists. reflexivity.
Defined.

(** C3 as stated fails: a response with status 500 whose body is a
    well-formed envelope is a success of [Search], not a decode error. *)
Lemma search_accepts_status_500 :
  let doc := Json.JObject [ ("error", Json.JBool false);
                            ("results", Json.JArray []) ] in
  ~ (200 <= 500 < 300)
  /\ Fofa.Search (answering 500 doc) (Fofa.NewFofaClient "a@b.c" "k")
       "port=80" 1 50 "ip"
     = Ok Fofa.SearchResult.zero
  /\ ~ decode_failure
         (Fofa.Search (answering 500 doc) (Fofa.NewFofaClient "a@b.c" "k")
            "port=80" 1 50 "ip").
Proof.
  cbn. split; [ lia | ]. split; [ reflexivity | ].
  intros (e & He & _). discriminate.
Qed.

(** *** [doPrintf] runs to the end of the format *)

Lemma literal_length (format : string) :
  (String.length (fst (Fmt.literal format))
   + String.length (snd (Fmt.literal format)))%nat
  = String.length format.
Proof.
  induction format as [ | c rest IH ]; cbn; [ reflexivity | ].
  destruct (Ascii.eqb c "%"); cbn; [ reflexivity | ].
  destruct (Fmt.literal rest) as [lit s]. cbn in *. lia.
Qed.

Lemma skip_flags_length (s : string) :
  (String.length (Fmt.skip_flags s) <= String.length s)%nat.
Proof.
  induction s as [ | c rest IH ]; cbn; [ lia | ].
  destruct (Ascii.eqb c "#" || Ascii.eqb c "0" || Ascii.eqb c "+"
            || Ascii.eqb c "-" || Ascii.eqb c " ")%bool; cbn; lia.
Qed.

Lemma parsenum_loop_length (s : string) :
  forall num isnum,
    (String.length (snd (Fmt.parsenum_loop s num isnum))
     <= String.length s)%nat.
Proof.
  induction s as [ | c rest IH ]; intros num isnum; cbn; [ lia | ].
  destruct (Fmt.is_digit c); cbn; [ | lia ].
  destruct (Fmt.tooLarge num); cbn; [ lia | ].
  specialize (IH (num * 10 + (byte_val c - 48)) true). lia.
Qed.

Lemma parsenum_length (s : string) :
  (String.length (snd (Fmt.parsenum s)) <= String.length s)%nat.
Proof. apply parsenum_loop_length. Qed.

Lemma split_bracket_length (s inner after : string) :
  Fmt.split_bracket s = Some (inner, after) ->
  (String.length after < String.length s)%nat.
Proof.
  revert inner. induction s as [ | c rest IH ]; intros inner; cbn;
    [ discriminate | ].
  destruct (Ascii.eqb c "]").
  - intros E; inversion E; subst. lia.
  - destruct (Fmt.split_bracket rest) as [ [inner' after'] | ];
      [ | discriminate ].
    intros E; inversion E; subst. specialize (IH inner' eq_refl). lia.
Qed.

Lemma parseArgNumber_length (format : string) :
  (String.length (snd (fst (Fmt.parseArgNumber format)))
   <= String.length format)%nat.
Proof.
  unfold Fmt.parseArgNumber. destruct format as [ | c after1 ]; [ cbn; lia | ].
  destruct (String.length (String c after1) <? 3)%nat; [ cbn; lia | ].
  destruct (Fmt.split_bracket after1) as [ [inner after] | ] eqn:Hs;
    [ | cbn; lia ].
  apply split_bracket_length in Hs.
  destruct (Fmt.parsenum inner) as [[width ok] unread].
  destruct (negb ok || negb (String.length unread =? 0)%nat)%bool; cbn; lia.
Qed.

Lemma starts_with_length (c : ascii) (format rest : string) :
  Fmt.starts_with c format = Some rest ->
  String.length format = S (String.length rest).
Proof.
  destruct format as [ | c' rest' ]; cbn; [ discriminate | ].
  destruct (Ascii.eqb c' c); [ | discriminate ].
  intros E; inversion E; subst. reflexivity.
Qed.

Lemma argNumber_length (format : string) (good : bool) :
  (String.length (fst (fst (Fmt.argNumber format good)))
   <= String.length format)%nat.
Proof.
  unfold Fmt.argNumber.
  destruct (Fmt.starts_with "[" format); [ | cbn; lia ].
  pose proof (parseArgNumber_length format) as Hp.
  destruct (Fmt.parseArgNumber format) as [[idx after] ok].
  cbn in *. lia.
Qed.

Lemma width_length (format : string) (afterIndex good : bool) :
  (String.length (snd (fst (fst (Fmt.width format afterIndex good))))
   <= String.length format)%nat.
Proof.
  unfold Fmt.width.
  destruct (Fmt.starts_with "*" format) as [ s' | ] eqn:Hs.
  - apply starts_with_length in Hs. cbn. lia.
  - pose proof (parsenum_length format) as Hp.
    destruct (Fmt.parsenum format) as [[n present] s']. cbn in *. lia.
Qed.

Lemma precision_length (format : string) (afterIndex good : bool) :
  (String.length (snd (fst (fst (Fmt.precision format afterIndex good))))
   <= String.length format)%nat.
Proof.
  unfold Fmt.precision.
  destruct (Fmt.starts_with "." format) as [ s | ] eqn:Hs; [ | cbn; lia ].
  apply starts_with_length in Hs.
  pose proof (argNumber_length s (if afterIndex then false else good)) as Ha.
  destruct (Fmt.argNumber s (if afterIndex then false else good))
    as [[s1 afterIndex1] good1].
  cbn [fst snd] in Ha.
  destruct (Fmt.starts_with "*" s1) as [ s' | ] eqn:Hs1.
  - apply starts_with_length in Hs1. cbn. lia.
  - pose proof (parsenum_length s1) as Hp.
    destruct (Fmt.parsenum s1) as [[n present] s']. cbn in *. lia.
Qed.

Lemma decodeVerb_length (c : ascii) (rest : string) :
  (String.length (snd (Fmt.decodeVerb (String c rest)))
   <= String.length rest)%nat.
Proof.
  unfold Fmt.decodeVerb.
  destruct (byte_val c <? 128); [ cbn; lia | ].
  destruct (Fmt.first c) as [ [[sz lo] hi] | ]; [ | cbn; lia ].
  destruct (String.length (String c rest) <? sz)%nat; [ cbn; lia | ].
  destruct rest as [ | s1 [ | s2 [ | s3 rest3 ] ] ];
    repeat match goal with
           | |- context [ if ?b then _ else _ ] => destruct b
           end; cbn; lia.
Qed.

Lemma verb_step_length (format out next : string) :
  Fmt.verb_step format = (out, Some next) ->
  (String.length next < String.length format)%nat.
Proof.
  unfold Fmt.verb_step.
  pose proof (skip_flags_length format) as H0.
  pose proof (argNumber_length (Fmt.skip_flags format) true) as H1.
  destruct (Fmt.argNumber (Fmt.skip_flags format) true)
    as [[s1 afterIndex1] good1].
  cbn [fst snd] in H1.
  pose proof (width_length s1 afterIndex1 good1) as H2.
  destruct (Fmt.width s1 afterIndex1 good1)
    as [[[out1 s2] afterIndex2] good2].
  cbn [fst snd] in H2.
  pose proof (precision_length s2 afterIndex2 good2) as H3.
  destruct (Fmt.precision s2 afterIndex2 good2)
    as [[[out2 s3] afterIndex3] good3].
  cbn [fst snd] in H3.
  assert (H4 : (String.length
                  (fst (fst (if afterIndex3 then (s3, afterIndex3, good3)
                             else Fmt.argNumber s3 good3)))
                <= String.length s3)%nat).
  { destruct afterIndex3; [ cbn; lia | apply argNumber_length ]. }
  destruct (if afterIndex3 then (s3, afterIndex3, good3)
            else Fmt.argNumber s3 good3) as [[s4 afterIndex4] good4].
  cbn [fst snd] in H4.
  destruct s4 as [ | c rest ]; [ discriminate | ].
  pose proof (decodeVerb_length c rest) as H5.
  destruct (Fmt.decodeVerb (String c rest)) as [verb s'].
  cbn [fst snd] in H5. cbn [String.length] in H4.
  intros E; inversion E; subst. lia.
Qed.

(** Every number of turns above the length of the format gives the same
    text: the loop has reached the end of the format. *)
Lemma doPrintf_turns (n : nat) :
  forall (m : nat) (format : string),
    (String.length format < n)%nat -> (String.length format < m)%nat ->
    Fmt.doPrintf n format = Fmt.doPrintf m format.
Proof.
  induction n as [ | n IH ]; intros m format Hn Hm; [ lia | ].
  destruct m as [ | m ]; [ lia | ]. cbn [Fmt.doPrintf].
  pose proof (literal_length format) as Hl.
  destruct (Fmt.literal format) as [lit s]. cbn [fst snd] in Hl.
  destruct s as [ | c after ]; [ reflexivity | ].
  destruct (Fmt.verb_step after) as [out [ next | ]] eqn:Hv;
    [ | reflexivity ].
  apply verb_step_length in Hv. cbn [String.length] in Hl.
  rewrite (IH m next); [ reflexivity | lia | lia ].
Qed.

Lemma Sprintf_turns (n : nat) (format : string) :
  (String.length format < n)%nat -> Fmt.doPrintf n format = Fmt.Sprintf format.
Proof.
  intros Hn. unfold Fmt.Sprintf. apply doPrintf_turns; lia.
Qed.

(** What Go prints for formats without operands. *)
Example Sprintf_examples :
  Fmt.Sprintf "100%" = "100%!(NOVERB)"
  /\ Fmt.Sprintf "100%%" = "100%"
  /\ Fmt.Sprintf "%d items" = "%!d(MISSING) items"
  /\ Fmt.Sprintf "%[1]d" = "%!d(BADINDEX)"
  /\ Fmt.Sprintf "%*d" = "%!(BADWIDTH)%!d(MISSING)"
  /\ Fmt.Sprintf "%.*f" = "%!(BADPREC)%!f(MISSING)"
  /\ Fmt.Sprintf "no verb at all" = "no verb at all".
Proof. repeat split. Qed.

(** *** Messages and errors *)

Lemma literal_percent_free (s : string) :
  percent_free s = true -> Fmt.literal s = (s, EmptyString).
Proof.
  induction s as [ | c rest IH ]; cbn; [ reflexivity | ].
  destruct (Ascii.eqb c "%"); cbn; [ discriminate | ].
  intros Hrest. now rewrite (IH Hrest).
Qed.

Lemma Sprintf_percent_free (s : string) :
  percent_free s = true -> Fmt.Sprintf s = s.
Proof.
  intros Hs. unfold Fmt.Sprintf. cbn [Fmt.doPrintf].
  now rewrite (literal_percent_free s Hs).
Qed.

(** A failure of [http.Get] is returned by the handlers as it is. *)
Lemma fofa_transport_failure (email key : string) (net : Http.Network)
  (arguments : Fofa.FofaSearchArguments.t) (msg : string) :
  (forall url, net url = Http.GetErr msg) ->
  Fofa.fofa_search email key net arguments = Failure (NetError msg).
Proof.
  intros Hnet. unfold Fofa.fofa_search, Fofa.Search. now rewrite Hnet.
Qed.

(** An error of [Search], whatever its origin, is returned by the
    handlers as it is. *)
Lemma fofa_search_error (email key : string) (net : Http.Network)
  (arguments : Fofa.FofaSearchArguments.t) (err : error) :
  Fofa.Search net (Fofa.NewFofaClient email key)
    (Fofa.FofaSearchArguments.Query (Fofa.defaults arguments))
    (Fofa.FofaSearchArguments.Page (Fofa.defaults arguments))
    (Fofa.FofaSearchArguments.Size (Fofa.defaults arguments))
    (Fofa.FofaSearchArguments.Fields (Fofa.defaults arguments))
  = Err err ->
  Fofa.fofa_search email key net arguments = Failure err.
Proof.
  intros Hsearch. unfold Fofa.fofa_search. cbv zeta. now rewrite Hsearch.
Qed.

Lemma hunter_search_error `{Float64} (apiKey : string) (net : Http.Network)
  (arguments : Hunter.HunterSearchArguments.t) (err : error) :
  Hunter.Search net (Hunter.NewHunterClient apiKey)
    (Hunter.HunterSearchArguments.Query (Hunter.defaults arguments))
    (Hunter.HunterSearchArguments.Page (Hunter.defaults arguments))
    (Hunter.HunterSearchArguments.Size (Hunter.defaults arguments))
    (Hunter.HunterSearchArguments.IsWeb (Hunter.defaults arguments))
    (Hunter.HunterSearchArguments.StartTime (Hunter.defaults arguments))
    (Hunter.HunterSearchArguments.EndTime (Hunter.defaults arguments))
  = Err err ->
  Hunter.hunter_search apiKey net arguments = Failure err.
Proof.
  intros Hsearch. unfold Hunter.hunter_search. cbv zeta. now rewrite Hsearch.
Qed.

(** A set failure indicator always ends the FOFA handler with an error
    built by [fmt.Errorf] from [errmsg], never with a report. *)
Lemma fofa_backend_failure (email key : string) (net : Http.Network)
  (arguments : Fofa.FofaSearchArguments.t) (status : Z) (body : Json.text)
  (res : Fofa.SearchResult.t) :
  (forall url, net url = Http.GetOk {| Http.StatusCode := status;
                                       Http.Body := Http.ReadOk body |}) ->
  Fofa.Unmarshal body = Ok res ->
  Fofa.SearchResult.Error res = true ->
  Fofa.fofa_search email key net arguments
  = Failure (Fmt.Errorf (Fofa.SearchResult.ErrMsg res)).
Proof.
  intros Hnet Hbody Herr. unfold Fofa.fofa_search, Fofa.Search.
  rewrite Hnet. cbn. now rewrite Hbody, Herr.
Qed.

(** The same for Hunter and a [code] other than 200. *)
Lemma hunter_backend_failure `{Float64} (apiKey : string)
  (net : Http.Network) (arguments : Hunter.HunterSearchArguments.t)
  (status : Z) (body : Json.text) (res : Hunter.SearchResult.t) :
  (forall url, net url = Http.GetOk {| Http.StatusCode := status;
                                       Http.Body := Http.ReadOk body |}) ->
  Hunter.Unmarshal body = Ok res ->
  Hunter.SearchResult.Code res <> 200 ->
  Hunter.hunter_search apiKey net arguments
  = Failure (Fmt.Errorf (Hunter.SearchResult.Message res)).
Proof.
  intros Hnet Hbody Hcode. unfold Hunter.hunter_search, Hunter.Search.
  rewrite Hnet. cbn. rewrite Hbody.
  apply Z.eqb_neq in Hcode. now rewrite Hcode.
Qed.

(** The text of that error is the message itself when the message holds
    no ['%']. *)
Lemma Errorf_percent_free (msg : string) :
  percent_free msg = true -> Error (Fmt.Errorf msg) = msg.
Proof. intros Hmsg. cbn. now apply Sprintf_percent_free. Qed.

(** C2 at a failing input.  FOFA answers with [error: true] and the
    message ["%d results exceed the limit"]: the handler returns an
    error, and no report, but the text of the error is the message run
    through [fmt.Errorf] as a format, which does not hold the message. *)
Theorem fofa_error_payload_reformatted :
  let doc := Json.JObject
               [ ("error", Json.JBool true);
                 ("errmsg", Json.JString "%d results exceed the limit") ] in
  let arguments := {| Fofa.FofaSearchArguments.Query := "port=80";
                      Fofa.FofaSearchArguments.Page := 1;
                      Fofa.FofaSearchArguments.Size := 50;
                      Fofa.FofaSearchArguments.Fields := "ip,port" |} in
  Fofa.fofa_search "a@b.c" "k" (answering 200 doc) arguments
    = Failure (errorString "%!d(MISSING) results exceed the limit")
  /\ String.index 0 "%d results exceed the limit"
       "%!d(MISSING) results exceed the limit" = None.
Proof. split; reflexivity. Qed.

(** C4 at a failing input.  Hunter answers with [code: 401] and the
    message ["quota 100% used"]: the text of the error the handler
    returns differs from the message. *)
Theorem hunter_error_message_altered :
  let doc := Json.JObject
               [ ("code", Json.JNumber "401");
                 ("message", Json.JString "quota 100% used") ] in
  let arguments := {| Hunter.HunterSearchArguments.Query := "ip.port=80";
                      Hunter.HunterSearchArguments.Page := 1;
                      Hunter.HunterSearchArguments.Size := 20;
                      Hunter.HunterSearchArguments.IsWeb := 1;
                      Hunter.HunterSearchArguments.StartTime := EmptyString;
                      Hunter.HunterSearchArguments.EndTime := EmptyString |} in
  exists err,
    @Hunter.hunter_search SmallNumbers "k" (answering 200 doc) arguments
      = Failure err
    /\ Error err = "quota 100%!u(MISSING)sed"
    /\ Error err <> "quota 100% used".
Proof.
  eexists. split; [ reflexivity | ]. split; [ reflexivity | discriminate ].
Qed.

(** ** The report *)

(** C5, as the code has it.  With no record the report is the header line
    alone, for both backends.  The FOFA header counts the rows, so it
    states 0; the Hunter header states the total the backend reports,
    whatever the number of records in the page. *)
Theorem report_without_records `{Float64}
  (res : Fofa.SearchResult.t) (data : Hunter.ResultData.t) :
  (Fofa.SearchResult.Results res = [] ->
   Fofa.output res = "搜索结果(共0条):" ++ Fmt.LF)
  /\ (Hunter.ResultData.Arr data = [] ->
      Hunter.write_items (Hunter.ResultData.Arr data) (Hunter.header data)
      = Response ("搜索结果(共"
                    ++ Fmt.fmtInteger (Hunter.ResultData.Total data)
                    ++ "条):" ++ Fmt.LF)).
Proof.
  split.
  - intros Hres. unfold Fofa.output. rewrite Hres. reflexivity.
  - intros Harr. rewrite Harr. reflexivity.
Qed.

(** C5 at concrete results: an empty FOFA result and an empty Hunter page
    of a search with 57 hits. *)
Lemma report_without_records_witness :
  Fofa.output Fofa.SearchResult.zero = "搜索结果(共0条):" ++ Fmt.LF
  /\ @Hunter.write_items SmallNumbers []
       (@Hunter.header SmallNumbers
          {| Hunter.ResultData.Total := 57; Hunter.ResultData.Time := 3;
             Hunter.ResultData.Arr := [];
             Hunter.ResultData.ConsumeQuota := EmptyString;
             Hunter.ResultData.RestQuota := EmptyString |})
     = Response ("搜索结果(共57条):" ++ Fmt.LF).
Proof.
  split.
  - apply (@report_without_records SmallNumbers Fofa.SearchResult.zero
             (@Hunter.ResultData.zero SmallNumbers)).
    reflexivity.
  - apply (@report_without_records SmallNumbers Fofa.SearchResult.zero
             {| Hunter.ResultData.Total := 57; Hunter.ResultData.Time := 3;
                Hunter.ResultData.Arr := [];
                Hunter.ResultData.ConsumeQuota := EmptyString;
                Hunter.ResultData.RestQuota := EmptyString |}).
    reflexivity.
Defined.

(** C5 as stated fails for Hunter: a page without records of a search
    with 57 hits is reported under a header that states 57, not 0. *)
Lemma hunter_header_states_total :
  let doc := Json.JObject
               [ ("code", Json.JNumber "200");
                 ("data", Json.JObject [ ("total", Json.JNumber "57");
                                         ("arr", Json.JArray []) ]) ] in
  let arguments := {| Hunter.HunterSearchArguments.Query := "ip.port=80";
                      Hunter.HunterSearchArguments.Page := 9;
                      Hunter.HunterSearchArguments.Size := 20;
                      Hunter.HunterSearchArguments.IsWeb := 1;
                      Hunter.HunterSearchArguments.StartTime := EmptyString;
                      Hunter.HunterSearchArguments.EndTime := EmptyString |} in
  @Hunter.hunter_search SmallNumbers "k" (answering 200 doc) arguments
    = Response ("搜索结果(共57条):" ++ Fmt.LF)
  /\ @Hunter.hunter_search SmallNumbers "k" (answering 200 doc) arguments
    <> Response ("搜索结果(共0条):" ++ Fmt.LF).
Proof. split; [ reflexivity | discriminate ]. Qed.

(** ** Panics of the Hunter handler *)

Section HunterPanics.

Context `{Float64}.

Lemma set_field_keeps_nil_data (r r' : Hunter.SearchResult.t)
  (key : string) (v : Json.json) :
  (Json.matches key "data" = true -> v = Json.JNull) ->
  Hunter.SearchResult.Data r = None ->
  Hunter.SearchResult.set_field r key v = Ok r' ->
  Hunter.SearchResult.Data r' = None.
Proof.
  intros Hnull Hnil. unfold Hunter.SearchResult.set_field.
  destruct (Json.matches key "code").
  { destruct (Json.unmarshal_int _ v); [ | discriminate ].
    intros E; inversion E; subst. exact Hnil. }
  destruct (Json.matches key "message").
  { destruct (Json.unmarshal_string _ v); [ | discriminate ].
    intros E; inversion E; subst. exact Hnil. }
  destruct (Json.matches key "data").
  { rewrite (Hnull eq_refl). cbn. intros E; inversion E; subst.
    reflexivity. }
  intros E; inversion E; subst. exact Hnil.
Qed.

Lemma object_keeps_nil_data (members : list (string * Json.json)) :
  data_missing_or_null members ->
  forall r r', Hunter.SearchResult.Data r = None ->
    Json.object Hunter.SearchResult.set_field r members = Ok r' ->
    Hunter.SearchResult.Data r' = None.
Proof.
  induction members as [ | [key v] rest IH ]; intros Hnull r r' Hnil; cbn.
  - intros E; inversion E; subst. exact Hnil.
  - destruct (Hunter.SearchResult.set_field r key v) as [ r1 | e ] eqn:Hs;
      [ | discriminate ].
    apply IH.
    + intros k x Hin. apply Hnull. now right.
    + eapply set_field_keeps_nil_data; [ | exact Hnil | exact Hs ].
      apply Hnull. now left.
Qed.

(** C9.  A body that is a JSON object with [code] 200 and with the
    [data] member missing or [null] decodes, [Search] returns it as a
    success with a nil [Data], and the handler panics on the
    dereference of [result.Data]: it returns neither a report nor an
    error. *)
Theorem nil_data_panics
  (apiKey : string) (net : Http.Network)
  (arguments : Hunter.HunterSearchArguments.t) (status : Z)
  (members : list (string * Json.json)) (res : Hunter.SearchResult.t) :
  (forall url,
      net url = Http.GetOk
                  {| Http.StatusCode := status;
                     Http.Body :=
                       Http.ReadOk (Json.Valid (Json.JObject members)) |}) ->
  Hunter.Unmarshal (Json.Valid (Json.JObject members)) = Ok res ->
  Hunter.SearchResult.Code res = 200 ->
  data_missing_or_null members ->
  Hunter.Search net (Hunter.NewHunterClient apiKey)
    (Hunter.HunterSearchArguments.Query (Hunter.defaults arguments))
    (Hunter.HunterSearchArguments.Page (Hunter.defaults arguments))
    (Hunter.HunterSearchArguments.Size (Hunter.defaults arguments))
    (Hunter.HunterSearchArguments.IsWeb (Hunter.defaults arguments))
    (Hunter.HunterSearchArguments.StartTime (Hunter.defaults arguments))
    (Hunter.HunterSearchArguments.EndTime (Hunter.defaults arguments))
  = Ok res
  /\ Hunter.SearchResult.Data res = None
  /\ Hunter.hunter_search apiKey net arguments = Panicked NilDereference.
Proof.
  intros Hnet Hbody Hcode Hdata.
  assert (Hsearch :
    Hunter.Search net (Hunter.NewHunterClient apiKey)
      (Hunter.HunterSearchArguments.Query (Hunter.defaults arguments))
      (Hunter.HunterSearchArguments.Page (Hunter.defaults arguments))
      (Hunter.HunterSearchArguments.Size (Hunter.defaults arguments))
      (Hunter.HunterSearchArguments.IsWeb (Hunter.defaults arguments))
      (Hunter.HunterSearchArguments.StartTime (Hunter.defaults arguments))
      (Hunter.HunterSearchArguments.EndTime (Hunter.defaults arguments))
    = Ok res).
  { unfold Hunter.Search. rewrite Hnet. cbn [Http.Body].
    rewrite Hbody, Hcode. reflexivity. }
  assert (Hnil : Hunter.SearchResult.Data res = None).
  { eapply (object_keeps_nil_data members Hdata Hunter.SearchResult.zero);
      [ reflexivity | exact Hbody ]. }
  split; [ exact Hsearch | ]. split; [ exact Hnil | ].
  unfold Hunter.hunter_search. cbv zeta. rewrite Hsearch, Hnil.
  reflexivity.
Qed.

End HunterPanics.

(** C9 at concrete bodies: [{"code":200}] and [{"code":200,"data":null}]. *)
Lemma nil_data_panics_witness :
  let arguments := {| Hunter.HunterSearchArguments.Query := "ip.port=80";
                      Hunter.HunterSearchArguments.Page := 0;
                      Hunter.HunterSearchArguments.Size := 0;
                      Hunter.HunterSearchArguments.IsWeb := 0;
                      Hunter.HunterSearchArguments.StartTime := EmptyString;
                      Hunter.HunterSearchArguments.EndTime := EmptyString |} in
  @Hunter.hunter_search SmallNumbers "k"
     (answering 200 (Json.JObject [ ("code", Json.JNumber "200") ]))
     arguments
   = Panicked NilDereference
  /\ @Hunter.hunter_search SmallNumbers "k"
       (answering 200 (Json.JObject [ ("code", Json.JNumber "200");
                                      ("data", Json.JNull) ]))
       arguments
     = Panicked NilDereference.
Proof.
  intros arguments. split.
  - apply (@nil_data_panics SmallNumbers "k"
             (answering 200 (Json.JObject [ ("code", Json.JNumber "200") ]))
             arguments 200 [ ("code", Json.JNumber "200") ]
             {| Hunter.SearchResult.Code := 200;
                Hunter.SearchResult.Message := EmptyString;
                Hunter.SearchResult.Data := None |}).
    + intros url. reflexivity.
    + reflexivity.
    + reflexivity.
    + intros key v [ E | [ ] ]. inversion E; subst. cbn. discriminate.
  - apply (@nil_data_panics SmallNumbers "k"
             (answering 200 (Json.JObject [ ("code", Json.JNumber "200");
                                            ("data", Json.JNull) ]))
             arguments 200
             [ ("code", Json.JNumber "200"); ("data", Json.JNull) ]
             {| Hunter.SearchResult.Code := 200;
                Hunter.SearchResult.Message := EmptyString;
                Hunter.SearchResult.Data := None |}).
    + intros url. reflexivity.
    + reflexivity.
    + reflexivity.
    + intros key v [ E | [ E | [ ] ] ]; inversion E; subst; cbn.
      * discriminate.
      * reflexivity.
Defined.

Section HunterRecords.

Context `{Float64}.

Lemma valueInterface_is_object (v : Json.json) (item : value) :
  Json.valueInterface v = Ok item ->
  is_object item = match v with Json.JObject _ => true | _ => false end.
Proof.
  destruct v; cbn.
  - intros E; inversion E; reflexivity.
  - intros E; inversion E; reflexivity.
  - destruct (ParseFloat lit); intros E; inversion E; reflexivity.
  - intros E; inversion E; reflexivity.
  - match goal with
    | |- match ?r with _ => _ end = _ -> _ => destruct r
    end; intros E; inversion E; reflexivity.
  - match goal with
    | |- match ?r with _ => _ end = _ -> _ => destruct r
    end; intros E; inversion E; reflexivity.
Qed.

Lemma write_items_objects (arr : list value) :
  Forall (fun item => is_object item = true) arr ->
  forall output, exists text, Hunter.write_items arr output = Response text.
Proof.
  induction 1 as [ | item rest Hitem _ IH ]; intros output; cbn.
  - now exists output.
  - destruct item; try discriminate. apply IH.
Qed.

Lemma write_items_non_object (arr : list value) :
  Exists (fun item => is_object item = false) arr ->
  forall output, exists dynamicType,
    Hunter.write_items arr output
    = Panicked (InterfaceConversion dynamicType).
Proof.
  induction 1 as [ item rest Hitem | item rest _ IH ]; intros output.
  - destruct item; try discriminate; cbn; eexists; reflexivity.
  - destruct item; cbn; try (eexists; reflexivity). apply IH.
Qed.

(** C10.  When [Search] succeeds with a [Data], the handler panics in
    the type assertion as soon as one element of [data.arr] is not an
    object, and returns neither a report nor an error; it returns a
    report when every element is an object. *)
Theorem non_object_record_panics
  (apiKey : string) (net : Http.Network)
  (arguments : Hunter.HunterSearchArguments.t)
  (res : Hunter.SearchResult.t) (data : Hunter.ResultData.t) :
  Hunter.Search net (Hunter.NewHunterClient apiKey)
    (Hunter.HunterSearchArguments.Query (Hunter.defaults arguments))
    (Hunter.HunterSearchArguments.Page (Hunter.defaults arguments))
    (Hunter.HunterSearchArguments.Size (Hunter.defaults arguments))
    (Hunter.HunterSearchArguments.IsWeb (Hunter.defaults arguments))
    (Hunter.HunterSearchArguments.StartTime (Hunter.defaults arguments))
    (Hunter.HunterSearchArguments.EndTime (Hunter.defaults arguments))
  = Ok res ->
  Hunter.SearchResult.Data res = Some data ->
  (Exists (fun item => is_object item = false) (Hunter.ResultData.Arr data)
   -> exists dynamicType,
        Hunter.hunter_search apiKey net arguments
        = Panicked (InterfaceConversion dynamicType))
  /\ (Forall (fun item => is_object item = true)
             (Hunter.ResultData.Arr data)
      -> exists text,
           Hunter.hunter_search apiKey net arguments = Response text).
Proof.
  intros Hsearch Hdata.
  unfold Hunter.hunter_search. cbv zeta. rewrite Hsearch, Hdata. split.
  - intros Hex. now apply write_items_non_object.
  - intros Hall. now apply write_items_objects.
Qed.

End HunterRecords.

(** C10 at concrete bodies: a [data.arr] that holds a string, and one
    that holds an object. *)
Lemma non_object_record_panics_witness :
  let arguments := {| Hunter.HunterSearchArguments.Query := "ip.port=80";
                      Hunter.HunterSearchArguments.Page := 1;
                      Hunter.HunterSearchArguments.Size := 20;
                      Hunter.HunterSearchArguments.IsWeb := 1;
                      Hunter.HunterSearchArguments.StartTime := EmptyString;
                      Hunter.HunterSearchArguments.EndTime := EmptyString |} in
  let page (record : Json.json) :=
    Json.JObject
      [ ("code", Json.JNumber "200");
        ("data", Json.JObject [ ("total", Json.JNumber "1");
                                ("arr", Json.JArray [ record ]) ]) ] in
  (exists dynamicType,
      @Hunter.hunter_search SmallNumbers "k"
        (answering 200 (page (Json.JString "1.1.1.1"))) arguments
      = Panicked (InterfaceConversion dynamicType))
  /\ (exists text,
        @Hunter.hunter_search SmallNumbers "k"
          (answering 200
             (page (Json.JObject [ ("ip", Json.JString "1.1.1.1") ])))
          arguments
        = Response text).
Proof.
  intros arguments page.
  pose (found (items : list (@value SmallNumbers)) :=
          {| Hunter.ResultData.Total := 1;
             Hunter.ResultData.Time := 0;
             Hunter.ResultData.Arr := items;
             Hunter.ResultData.ConsumeQuota := EmptyString;
             Hunter.ResultData.RestQuota := EmptyString |}).
  pose (decoded (items : list (@value SmallNumbers)) :=
          {| Hunter.SearchResult.Code := 200;
             Hunter.SearchResult.Message := EmptyString;
             Hunter.SearchResult.Data := Some (found items) |}).
  split.
  - apply (@non_object_record_panics SmallNumbers "k"
             (answering 200 (page (Json.JString "1.1.1.1"))) arguments
             (decoded [ VString "1.1.1.1" ]) (found [ VString "1.1.1.1" ])
             eq_refl eq_refl).
    apply Exists_cons_hd. reflexivity.
  - apply (@non_object_record_panics SmallNumbers "k"
             (answering 200
                (page (Json.JObject [ ("ip", Json.JString "1.1.1.1") ])))
             arguments
             (decoded [ VMap [ ("ip", VString "1.1.1.1") ] ])
             (found [ VMap [ ("ip", VString "1.1.1.1") ] ])
             eq_refl eq_refl).
    apply Forall_cons; [ reflexivity | apply Forall_nil ].
Defined.

(** The end-to-end scenario of the specification for FOFA: page and size
    0 are defaulted, and a response with three rows is reported under a
    header that counts them, one line per row. *)
Example fofa_report :
  let doc := Json.JObject
               [ ("error", Json.JBool false);
                 ("size", Json.JNumber "3");
                 ("results", Json.JArray
                    [ Json.JArray [ Json.JString "1.1.1.1";
                                    Json.JString "80";
                                    Json.JString "test" ];
                      Json.JArray [ Json.JString "2.2.2.2";
                                    Json.JString "443";
                                    Json.JString "test page" ];
                      Json.JArray [ Json.JString "3.3.3.3";
                                    Json.JString "8080";
                                    Json.JString "testing" ] ]) ] in
  let arguments := {| Fofa.FofaSearchArguments.Query := "title=test";
                      Fofa.FofaSearchArguments.Page := 0;
                      Fofa.FofaSearchArguments.Size := 0;
                      Fofa.FofaSearchArguments.Fields := "ip,port,title" |} in
  Fofa.defaults arguments
  = {| Fofa.FofaSearchArguments.Query := "title=test";
       Fofa.FofaSearchArguments.Page := 1;
       Fofa.FofaSearchArguments.Size := 50;
       Fofa.FofaSearchArguments.Fields := "ip,port,title" |}
  /\ Fofa.fofa_search "a@b.c" "k" (answering 200 doc) arguments
     = Response
         ("搜索结果(共3条):" ++ Fmt.LF
            ++ "1.1.1.1 | 80 | test" ++ Fmt.LF
            ++ "2.2.2.2 | 443 | test page" ++ Fmt.LF
            ++ "3.3.3.3 | 8080 | testing" ++ Fmt.LF).
Proof. split; reflexivity. Qed.

(** The report of a page whose records are objects. *)
Example hunter_report :
  let doc := Json.JObject
               [ ("code", Json.JNumber "200");
                 ("data", Json.JObject
                    [ ("total", Json.JNumber "2");
                      ("arr", Json.JArray
                         [ Json.JObject [ ("ip", Json.JString "1.1.1.1");
                                          ("port", Json.JNumber "443");
                                          ("web_title", Json.JString "t") ];
                           Json.JObject [ ("ip", Json.JString "2.2.2.2");
                                          ("port", Json.JNumber "80") ] ]) ])
               ] in
  let arguments := {| Hunter.HunterSearchArguments.Query := "ip.port=80";
                      Hunter.HunterSearchArguments.Page := 1;
                      Hunter.HunterSearchArguments.Size := 20;
                      Hunter.HunterSearchArguments.IsWeb := 1;
                      Hunter.HunterSearchArguments.StartTime := EmptyString;
                      Hunter.HunterSearchArguments.EndTime := EmptyString |} in
  @Hunter.hunter_search SmallNumbers "k" (answering 200 doc) arguments
  = Response
      ("搜索结果(共2条):" ++ Fmt.LF
         ++ "IP: 1.1.1.1 | 端口: 443 | 标题: t" ++ Fmt.LF
         ++ "IP: 2.2.2.2 | 端口: 80 | 标题: %!s(<nil>)" ++ Fmt.LF).
Proof. reflexivity. Qed.

(** * Further properties *)

(** ** URL escaping *)

Lemma escape_byte (c : ascii) (rest : string) :
  Url.QueryUnescape (Url.QueryEscape (String c rest))
  = match Url.QueryUnescape (Url.QueryEscape rest) with
    | Some t => Some (String c t)
    | None => None
    end.
Proof.
  destruct c as [[] [] [] [] [] [] [] []]; reflexivity.
Qed.

Lemma QueryEscape_round_trip_aux (s : string) :
  Url.QueryUnescape (Url.QueryEscape s) = Some s.
Proof.
  induction s as [ | c rest IH ]; [ reflexivity | ].
  now rewrite escape_byte, IH.
Qed.

Lemma escape_byte_safe (c : ascii) (rest : string) :
  all_bytes query_safe (Url.QueryEscape (String c rest))
  = all_bytes query_safe (Url.QueryEscape rest).
Proof.
  destruct c as [[] [] [] [] [] [] [] []]; reflexivity.
Qed.

(** X1.  Whatever the value of a parameter, its escaped form holds only
    unreserved characters, [+] and [%]: no [&], [=], [;], [#], [?], [/] or
    space, so a value cannot end its own [key=value] pair or start
    another one. *)
Theorem QueryEscape_is_query_safe (s : string) :
  all_bytes query_safe (Url.QueryEscape s) = true
  /\ query_safe "&" = false /\ query_safe "=" = false
  /\ query_safe ";" = false /\ query_safe "#" = false
  /\ query_safe "?" = false /\ query_safe "/" = false
  /\ query_safe " " = false.
Proof.
  split; [ | repeat split ].
  induction s as [ | c rest IH ]; [ reflexivity | ].
  now rewrite escape_byte_safe.
Qed.

(** X2.  Escaping loses nothing: unescaping the escaped form of any value
    gives the value back.  In particular the raw query is recovered from
    the [qbase64] (FOFA) and [search] (Hunter) parameter as it stands in
    the URL, by unescaping and then decoding with the scheme of the
    backend. *)
Theorem QueryEscape_round_trip (s query : string) :
  Url.QueryUnescape (Url.QueryEscape s) = Some s
  /\ match Url.QueryUnescape (Url.QueryEscape (Fofa.base64Encode query)) with
     | Some received => Base64.DecodeString Base64.StdEncoding received
     | None => None
     end = Some query
  /\ match Url.QueryUnescape
             (Url.QueryEscape (Hunter.base64URLEncode query)) with
     | Some received => Base64.DecodeString Base64.URLEncoding received
     | None => None
     end = Some query.
Proof.
  split; [ apply QueryEscape_round_trip_aux | ].
  rewrite !QueryEscape_round_trip_aux. split.
  - apply StdEncoding_round_trip.
  - apply URLEncoding_round_trip.
Qed.

(** ** The encoded query *)

Lemma encode_bytes (enc : Base64.Encoding) (f : ascii -> bool) :
  f (Base64.padChar enc) = true ->
  (forall i, 0 <= i < 64 -> f (byte_at (Base64.encode enc) i) = true) ->
  forall s, all_bytes f (Base64.EncodeToString enc s) = true.
Proof.
  intros Hpad Hf.
  assert (Hs : forall v, f (byte_at (Base64.encode enc) (Z.land v 63)) = true)
    by (intros v; apply Hf, sextet_range).
  intros s.
  enough (H : all_bytes f (Base64.EncodeToString enc s) = true
              /\ (forall a, all_bytes f
                    (Base64.EncodeToString enc (String a s)) = true)
              /\ (forall a b, all_bytes f
                    (Base64.EncodeToString enc (String a (String b s)))
                    = true)) by apply H.
  induction s as [ | c s (IH0 & IH1 & IH2) ].
  - split; [ reflexivity | split ]; intros;
      cbn [Base64.EncodeToString all_bytes]; now rewrite ?Hs, ?Hpad.
  - split; [ apply IH1 | split ]; intros; [ apply IH2 | ].
    cbn [Base64.EncodeToString all_bytes]. now rewrite !Hs, IH0.
Qed.

Lemma encode_length (enc : Base64.Encoding) (s : string) :
  String.length (Base64.EncodeToString enc s)
  = (4 * ((String.length s + 2) / 3))%nat.
Proof.
  enough (H : String.length (Base64.EncodeToString enc s)
              = (4 * ((String.length s + 2) / 3))%nat
              /\ (forall a, String.length
                    (Base64.EncodeToString enc (String a s))
                    = (4 * ((String.length (String a s) + 2) / 3))%nat)
              /\ (forall a b, String.length
                    (Base64.EncodeToString enc (String a (String b s)))
                    = (4 * ((String.length (String a (String b s)) + 2) / 3))%nat))
    by apply H.
  induction s as [ | c s (IH0 & IH1 & IH2) ].
  - repeat split.
  - split; [ apply IH1 | split ]; intros; [ apply IH2 | ].
    cbn [Base64.EncodeToString String.length]. rewrite IH0.
    replace (S (S (S (String.length s))) + 2)%nat
      with (String.length s + 2 + 1 * 3)%nat by lia.
    rewrite Nat.div_add by lia. lia.
Qed.

(** X3.  The encoded query is made of whole groups of four characters,
    one group for every three bytes of the query or part thereof, taken
    from the alphabet of the backend or the padding [=]: FOFA's [qbase64]
    holds letters, digits, [+], [/] and [=]; Hunter's [search] holds
    letters, digits, [-], [_] and [=], and never [+] or [/]. *)
Theorem encoded_query_shape (query : string) :
  String.length (Fofa.base64Encode query)
    = (4 * ((String.length query + 2) / 3))%nat
  /\ all_bytes base64_std_byte (Fofa.base64Encode query) = true
  /\ String.length (Hunter.base64URLEncode query)
    = (4 * ((String.length query + 2) / 3))%nat
  /\ all_bytes base64_url_byte (Hunter.base64URLEncode query) = true.
Proof.
  split; [ apply encode_length | ].
  split; [ | split; [ apply encode_length | ] ].
  - apply encode_bytes; [ reflexivity | ].
    apply (every_sextet
             (fun i => base64_std_byte
                         (byte_at (Base64.encode Base64.StdEncoding) i))).
    vm_compute. reflexivity.
  - apply encode_bytes; [ reflexivity | ].
    apply (every_sextet
             (fun i => base64_url_byte
                         (byte_at (Base64.encode Base64.URLEncoding) i))).
    vm_compute. reflexivity.
Qed.

(** ** Defaulting, continued *)

(** X4.  Defaulting touches nothing but zero numbers: the query, the
    field selector and the time bounds are kept, [is_web] becomes 1
    exactly when it is 0, and after defaulting no number of the request
    is 0. *)
Theorem defaulting_leaves_no_zero
  (a : Fofa.FofaSearchArguments.t) (b : Hunter.HunterSearchArguments.t) :
  (Fofa.FofaSearchArguments.Query (Fofa.defaults a)
     = Fofa.FofaSearchArguments.Query a
   /\ Fofa.FofaSearchArguments.Fields (Fofa.defaults a)
     = Fofa.FofaSearchArguments.Fields a
   /\ Fofa.FofaSearchArguments.Page (Fofa.defaults a) <> 0
   /\ Fofa.FofaSearchArguments.Size (Fofa.defaults a) <> 0)
  /\ (Hunter.HunterSearchArguments.Query (Hunter.defaults b)
        = Hunter.HunterSearchArguments.Query b
      /\ Hunter.HunterSearchArguments.StartTime (Hunter.defaults b)
        = Hunter.HunterSearchArguments.StartTime b
      /\ Hunter.HunterSearchArguments.EndTime (Hunter.defaults b)
        = Hunter.HunterSearchArguments.EndTime b
      /\ Hunter.HunterSearchArguments.IsWeb (Hunter.defaults b)
        = (if Hunter.HunterSearchArguments.IsWeb b =? 0 then 1
           else Hunter.HunterSearchArguments.IsWeb b)
      /\ Hunter.HunterSearchArguments.Page (Hunter.defaults b) <> 0
      /\ Hunter.HunterSearchArguments.Size (Hunter.defaults b) <> 0
      /\ Hunter.HunterSearchArguments.IsWeb (Hunter.defaults b) <> 0).
Proof.
  rewrite fofa_defaults_fields, hunter_defaults_fields. cbn.
  split; [ split; [ | split; [ | split ] ]
         | split; [ | split; [ | split; [ | split; [ | split; [ | split ] ] ] ] ] ];
    try reflexivity.
  - destruct (Z.eqb_spec (Fofa.FofaSearchArguments.Page a) 0); lia.
  - destruct (Z.eqb_spec (Fofa.FofaSearchArguments.Size a) 0); lia.
  - destruct (Z.eqb_spec (Hunter.HunterSearchArguments.Page b) 0); lia.
  - destruct (Z.eqb_spec (Hunter.HunterSearchArguments.Size b) 0); lia.
  - destruct (Z.eqb_spec (Hunter.HunterSearchArguments.IsWeb b) 0); lia.
Qed.

(** X5.  Defaulting changes the arguments exactly when one of the
    defaulted numbers is 0. *)
Theorem defaulting_fixed_points
  (a : Fofa.FofaSearchArguments.t) (b : Hunter.HunterSearchArguments.t) :
  (Fofa.defaults a = a
   <-> Fofa.FofaSearchArguments.Page a <> 0
       /\ Fofa.FofaSearchArguments.Size a <> 0)
  /\ (Hunter.defaults b = b
      <-> Hunter.HunterSearchArguments.Page b <> 0
          /\ Hunter.HunterSearchArguments.Size b <> 0
          /\ Hunter.HunterSearchArguments.IsWeb b <> 0).
Proof.
  rewrite fofa_defaults_fields, hunter_defaults_fields.
  destruct a as [q p s f], b as [q' p' s' w' st et]. cbn. split; split.
  - intros E. inversion E as [[Hp Hs]].
    destruct (Z.eqb_spec p 0), (Z.eqb_spec s 0); lia.
  - intros [Hp Hs]. apply Z.eqb_neq in Hp, Hs. now rewrite Hp, Hs.
  - intros E. inversion E as [[Hp Hs Hw]].
    destruct (Z.eqb_spec p' 0), (Z.eqb_spec s' 0), (Z.eqb_spec w' 0); lia.
  - intros (Hp & Hs & Hw). apply Z.eqb_neq in Hp, Hs, Hw.
    now rewrite Hp, Hs, Hw.
Qed.

(** ** Failures, continued *)

(** X6.  A backend message without ['%'] reaches the caller unchanged:
    when the failure indicator is set and the message holds no ['%'], the
    handler fails with an error whose text is the message. *)
Theorem plain_backend_message_verbatim `{Float64}
  (email key apiKey : string) (netF netH : Http.Network)
  (a : Fofa.FofaSearchArguments.t) (b : Hunter.HunterSearchArguments.t)
  (statusF statusH : Z) (bodyF bodyH : Json.text)
  (resF : Fofa.SearchResult.t) (resH : Hunter.SearchResult.t) :
  ((forall url, netF url = Http.GetOk {| Http.StatusCode := statusF;
                                         Http.Body := Http.ReadOk bodyF |}) ->
   Fofa.Unmarshal bodyF = Ok resF ->
   Fofa.SearchResult.Error resF = true ->
   percent_free (Fofa.SearchResult.ErrMsg resF) = true ->
   exists err, Fofa.fofa_search email key netF a = Failure err
               /\ Error err = Fofa.SearchResult.ErrMsg resF)
  /\ ((forall url, netH url = Http.GetOk {| Http.StatusCode := statusH;
                                            Http.Body := Http.ReadOk bodyH |}) ->
      Hunter.Unmarshal bodyH = Ok resH ->
      Hunter.SearchResult.Code resH <> 200 ->
      percent_free (Hunter.SearchResult.Message resH) = true ->
      exists err, Hunter.hunter_search apiKey netH b = Failure err
                  /\ Error err = Hunter.SearchResult.Message resH).
Proof.
  split.
  - intros Hnet Hbody Herr Hplain. eexists. split.
    + now apply (fofa_backend_failure email key netF a statusF bodyF resF).
    + now apply Errorf_percent_free.
  - intros Hnet Hbody Hcode Hplain. eexists. split.
    + now apply (hunter_backend_failure apiKey netH b statusH bodyH resH).
    + now apply Errorf_percent_free.
Qed.

(** X6 at concrete responses. *)
Lemma plain_backend_message_verbatim_witness :
  let a := {| Fofa.FofaSearchArguments.Query := "port=";
              Fofa.FofaSearchArguments.Page := 1;
              Fofa.FofaSearchArguments.Size := 50;
              Fofa.FofaSearchArguments.Fields := "ip" |} in
  let b := {| Hunter.HunterSearchArguments.Query := "ip.port=80";
              Hunter.HunterSearchArguments.Page := 1;
              Hunter.HunterSearchArguments.Size := 20;
              Hunter.HunterSearchArguments.IsWeb := 1;
              Hunter.HunterSearchArguments.StartTime := EmptyString;
              Hunter.HunterSearchArguments.EndTime := EmptyString |} in
  let docF := Json.JObject
                [ ("error", Json.JBool true);
                  ("errmsg", Json.JString "[820000] FOFA Query Syntax Incorrect") ] in
  let docH := Json.JObject
                [ ("code", Json.JNumber "401");
                  ("message", Json.JString "token invalid") ] in
  (exists err, Fofa.fofa_search "a@b.c" "k" (answering 200 docF) a
               = Failure err
               /\ Error err = "[820000] FOFA Query Syntax Incorrect")
  /\ (exists err, @Hunter.hunter_search SmallNumbers "k"
                    (answering 200 docH) b = Failure err
                  /\ Error err = "token invalid").
Proof.
  intros a b docF docH.
  destruct (@plain_backend_message_verbatim SmallNumbers "a@b.c" "k" "k"
              (answering 200 docF) (answering 200 docH) a b 200 200
              (Json.Valid docF) (Json.Valid docH)
              {| Fofa.SearchResult.Error := true;
                 Fofa.SearchResult.ErrMsg :=
                   "[820000] FOFA Query Syntax Incorrect";
                 Fofa.SearchResult.Mode := EmptyString;
                 Fofa.SearchResult.Page := 0;
                 Fofa.SearchResult.Size := 0;
                 Fofa.SearchResult.Results := [] |}
              {| Hunter.SearchResult.Code := 401;
                 Hunter.SearchResult.Message := "token invalid";
                 Hunter.SearchResult.Data := None |}) as [Hf Hh].
  split.
  - apply Hf; [ intros url | | | ]; reflexivity.
  - apply Hh; [ intros url; reflexivity | reflexivity | | reflexivity ].
    cbn. lia.
Defined.

(** ** The report, continued *)

Lemma fofa_lines (rows : list (list string)) (output : string) :
  fold_left (fun output item => output ++ String.concat " | " item ++ Fmt.LF)
            rows output
  = output ++ String.concat EmptyString (map fofa_line rows).
Proof.
  revert output. induction rows as [ | item rest IH ]; intros output.
  - cbn. now rewrite string_app_nil_r.
  - cbn [fold_left map]. rewrite IH, string_app_assoc. f_equal.
    unfold fofa_line at 2. destruct rest as [ | item' rest' ].
    + cbn. now rewrite string_app_nil_r.
    + cbn [map String.concat]. cbn [String.append]. reflexivity.
Qed.

Lemma write_items_lines `{Float64} (arr : list value) :
  Forall (fun item => is_object item = true) arr ->
  forall output,
    Hunter.write_items arr output
    = Response (output ++ String.concat EmptyString (map hunter_line arr)).
Proof.
  induction 1 as [ | item rest Hitem _ IH ]; intros output.
  - cbn. now rewrite string_app_nil_r.
  - destruct item; try discriminate. cbn [Hunter.write_items].
    rewrite IH, string_app_assoc. do 2 f_equal.
    destruct rest as [ | item' rest' ].
    + cbn. now rewrite string_app_nil_r.
    + cbn [map String.concat hunter_line]. cbn [String.append]. reflexivity.
Qed.

(** X7.  The report in closed form.  For FOFA: the header with the number
    of rows, then the rows in the order of the response, each one its
    fields joined by [" | "] and ended by a line feed.  For Hunter, when
    every record is an object: the header with the reported total, then
    one line per record in the order of the response. *)
Theorem report_lines_in_order `{Float64}
  (res : Fofa.SearchResult.t) (data : Hunter.ResultData.t) :
  Fofa.output res
  = "搜索结果(共"
      ++ Fmt.fmtInteger (Z.of_nat (List.length (Fofa.SearchResult.Results res)))
      ++ "条):" ++ Fmt.LF
      ++ String.concat EmptyString
           (map fofa_line (Fofa.SearchResult.Results res))
  /\ (Forall (fun item => is_object item = true) (Hunter.ResultData.Arr data)
      -> Hunter.write_items (Hunter.ResultData.Arr data) (Hunter.header data)
         = Response
             ("搜索结果(共"
                ++ Fmt.fmtInteger (Hunter.ResultData.Total data)
                ++ "条):" ++ Fmt.LF
                ++ String.concat EmptyString
                     (map hunter_line (Hunter.ResultData.Arr data)))).
Proof.
  split.
  - unfold Fofa.output. rewrite fofa_lines.
    now rewrite !string_app_assoc.
  - intros Hall. rewrite (write_items_lines _ Hall). unfold Hunter.header.
    now rewrite !string_app_assoc.
Qed.

(** X7 at a concrete page of two records. *)
Lemma report_lines_in_order_witness :
  let first := VMap [ ("ip", VString "1.1.1.1"); ("port", @VFloat64 SmallNumbers 80);
                      ("web_title", VString "a") ] in
  let second := VMap [ ("ip", VString "2.2.2.2"); ("port", @VFloat64 SmallNumbers 443);
                       ("web_title", VString "b") ] in
  @Hunter.write_items SmallNumbers [ first; second ]
    ("搜索结果(共9条):" ++ Fmt.LF)
  = Response ("搜索结果(共9条):" ++ Fmt.LF
                ++ "IP: 1.1.1.1 | 端口: 80 | 标题: a" ++ Fmt.LF
                ++ "IP: 2.2.2.2 | 端口: 443 | 标题: b" ++ Fmt.LF).
Proof.
  intros first second.
  destruct (@report_lines_in_order SmallNumbers Fofa.SearchResult.zero
              {| Hunter.ResultData.Total := 9; Hunter.ResultData.Time := 0;
                 Hunter.ResultData.Arr := [ first; second ];
                 Hunter.ResultData.ConsumeQuota := EmptyString;
                 Hunter.ResultData.RestQuota := EmptyString |}) as [_ Hh].
  apply Hh. repeat constructor.
Defined.

Lemma count_byte_app (c : ascii) (s1 s2 : string) :
  count_byte c (s1 ++ s2) = (count_byte c s1 + count_byte c s2)%nat.
Proof.
  induction s1 as [ | c' s1 IH ]; cbn; [ reflexivity | ]. rewrite IH. lia.
Qed.

Lemma count_byte_digits (d : Decimal.uint) :
  count_byte line_feed (NilEmpty.string_of_uint d) = O.
Proof. induction d; cbn; auto. Qed.

Lemma count_byte_fmtInteger (n : Z) :
  count_byte line_feed (Fmt.fmtInteger n) = O.
Proof.
  unfold Fmt.fmtInteger, NilZero.string_of_int.
  destruct (Z.to_int n) as [ d | d ]; unfold NilZero.string_of_uint;
    destruct d; cbn; auto using count_byte_digits.
Qed.

Lemma concat_cons (sep x y : string) (rest : list string) :
  String.concat sep (x :: y :: rest)
  = x ++ sep ++ String.concat sep (y :: rest).
Proof. reflexivity. Qed.

Lemma count_byte_join (fields : list string) :
  Forall (fun field => count_byte line_feed field = O) fields ->
  count_byte line_feed (String.concat " | " fields) = O.
Proof.
  induction 1 as [ | field rest Hfield Hrest IH ]; [ reflexivity | ].
  destruct rest as [ | field' rest' ]; [ exact Hfield | ].
  rewrite concat_cons, !count_byte_app, Hfield, IH. reflexivity.
Qed.

Lemma count_byte_lines (rows : list (list string)) :
  Forall (Forall (fun field => count_byte line_feed field = O)) rows ->
  count_byte line_feed (String.concat EmptyString (map fofa_line rows))
  = List.length rows.
Proof.
  induction 1 as [ | item rest Hitem Hrest IH ]; [ reflexivity | ].
  assert (Hline : count_byte line_feed (fofa_line item) = 1%nat).
  { unfold fofa_line. rewrite count_byte_app, (count_byte_join _ Hitem).
    reflexivity. }
  destruct rest as [ | item' rest' ].
  - cbn. exact Hline.
  - cbn [map] in *. rewrite concat_cons, !count_byte_app, Hline, IH.
    reflexivity.
Qed.

(** X8.  When no field of the response holds a line feed, the FOFA report
    has exactly one line for the header and one line per row. *)
Theorem fofa_report_line_count (res : Fofa.SearchResult.t) :
  Forall (Forall (fun field => count_byte line_feed field = O))
         (Fofa.SearchResult.Results res) ->
  count_byte line_feed (Fofa.output res)
  = S (List.length (Fofa.SearchResult.Results res)).
Proof.
  intros Hfields. unfold Fofa.output.
  rewrite fofa_lines, !count_byte_app, count_byte_fmtInteger.
  rewrite (count_byte_lines _ Hfields). reflexivity.
Qed.

(** X8 at a concrete result of two rows. *)
Lemma fofa_report_line_count_witness :
  count_byte line_feed
    (Fofa.output
       {| Fofa.SearchResult.Error := false;
          Fofa.SearchResult.ErrMsg := EmptyString;
          Fofa.SearchResult.Mode := "extended";
          Fofa.SearchResult.Page := 1;
          Fofa.SearchResult.Size := 2;
          Fofa.SearchResult.Results :=
            [ [ "1.1.1.1"; "80" ]; [ "2.2.2.2"; "443" ] ] |})
  = 3%nat.
Proof.
  apply (fofa_report_line_count
           {| Fofa.SearchResult.Error := false;
              Fofa.SearchResult.ErrMsg := EmptyString;
              Fofa.SearchResult.Mode := "extended";
              Fofa.SearchResult.Page := 1;
              Fofa.SearchResult.Size := 2;
              Fofa.SearchResult.Results :=
                [ [ "1.1.1.1"; "80" ]; [ "2.2.2.2"; "443" ] ] |}).
  repeat constructor.
Defined.

(** ** Panics and reports of the Hunter handler, continued *)

(** X9.  The first record that is not an object decides the panic: the
    type assertion names its dynamic type, whatever follows it, and the
    lines written for the records before it are lost. *)
Theorem first_non_object_decides `{Float64}
  (objects rest : list value) (item : value) (output : string) :
  Forall (fun record => is_object record = true) objects ->
  is_object item = false ->
  Hunter.write_items (objects ++ item :: rest) output
  = Panicked (InterfaceConversion (Hunter.dynamicType item)).
Proof.
  intros Hobjects Hitem. revert output.
  induction Hobjects as [ | record objects Hrecord _ IH ]; intros output.
  - destruct item; try discriminate; reflexivity.
  - destruct record; try discriminate. cbn. apply IH.
Qed.

(** X9 at a concrete page: an object, then a number, then a string. *)
Lemma first_non_object_decides_witness :
  @Hunter.write_items SmallNumbers
    [ VMap [ ("ip", VString "1.1.1.1") ]; @VFloat64 SmallNumbers 7;
      VString "x" ]
    ("搜索结果(共3条):" ++ Fmt.LF)
  = Panicked (InterfaceConversion "float64").
Proof.
  apply (@first_non_object_decides SmallNumbers
           [ VMap [ ("ip", VString "1.1.1.1") ] ] [ VString "x" ]
           (@VFloat64 SmallNumbers 7)).
  - repeat constructor.
  - reflexivity.
Defined.

Lemma write_items_response `{Float64} (arr : list value) :
  forall output text,
    Hunter.write_items arr output = Response text ->
    Forall (fun item => is_object item = true) arr.
Proof.
  induction arr as [ | item rest IH ]; intros output text; [ constructor | ].
  destruct item; cbn; try discriminate.
  intros Hrest. constructor; [ reflexivity | ]. eapply IH, Hrest.
Qed.

(** X10.  A report is only ever made from a success envelope.  If
    [fofa_search] returns a report, the request was answered, the body
    decoded, the error flag was not set, and the report is the one of the
    decoded result.  If [hunter_search] returns a report, the body
    decoded with [code] 200 and a [data] whose records are all objects,
    and the report is the header and the lines of that [data]. *)
Theorem report_only_from_success `{Float64}
  (email key apiKey : string) (net : Http.Network)
  (a : Fofa.FofaSearchArguments.t) (b : Hunter.HunterSearchArguments.t)
  (text : string) :
  (Fofa.fofa_search email key net a = Response text ->
   exists status body res,
     net (Fofa.requestURL (Fofa.NewFofaClient email key)
            (Fofa.FofaSearchArguments.Query (Fofa.defaults a))
            (Fofa.FofaSearchArguments.Page (Fofa.defaults a))
            (Fofa.FofaSearchArguments.Size (Fofa.defaults a))
            (Fofa.FofaSearchArguments.Fields (Fofa.defaults a)))
     = Http.GetOk {| Http.StatusCode := status;
                     Http.Body := Http.ReadOk body |}
     /\ Fofa.Unmarshal body = Ok res
     /\ Fofa.SearchResult.Error res = false
     /\ text = Fofa.output res)
  /\ (Hunter.hunter_search apiKey net b = Response text ->
      exists status body res data,
        net (Hunter.requestURL (Hunter.NewHunterClient apiKey)
               (Hunter.HunterSearchArguments.Query (Hunter.defaults b))
               (Hunter.HunterSearchArguments.Page (Hunter.defaults b))
               (Hunter.HunterSearchArguments.Size (Hunter.defaults b))
               (Hunter.HunterSearchArguments.IsWeb (Hunter.defaults b))
               (Hunter.HunterSearchArguments.StartTime (Hunter.defaults b))
               (Hunter.HunterSearchArguments.EndTime (Hunter.defaults b)))
        = Http.GetOk {| Http.StatusCode := status;
                        Http.Body := Http.ReadOk body |}
        /\ Hunter.Unmarshal body = Ok res
        /\ Hunter.SearchResult.Code res = 200
        /\ Hunter.SearchResult.Data res = Some data
        /\ Forall (fun item => is_object item = true)
                  (Hunter.ResultData.Arr data)
        /\ text = Hunter.header data
                    ++ String.concat EmptyString
                         (map hunter_line (Hunter.ResultData.Arr data))).
Proof.
  split.
  - unfold Fofa.fofa_search, Fofa.Search. cbv zeta.
    destruct (net _) as [ msg | [status [ msg | body ]] ];
      cbn; try discriminate.
    destruct (Fofa.Unmarshal body) as [ res | e ] eqn:Hbody;
      [ | discriminate ].
    destruct (Fofa.SearchResult.Error res) eqn:Herr; [ discriminate | ].
    intros E; inversion E; subst.
    exists status, body, res. repeat split; assumption.
  - unfold Hunter.hunter_search, Hunter.Search. cbv zeta.
    destruct (net _) as [ msg | [status [ msg | body ]] ];
      cbn; try discriminate.
    destruct (Hunter.Unmarshal body) as [ res | e ] eqn:Hbody;
      [ | discriminate ].
    destruct (Z.eqb_spec (Hunter.SearchResult.Code res) 200) as [ Hcode | ];
      cbn; [ | discriminate ].
    destruct (Hunter.SearchResult.Data res) as [ data | ] eqn:Hdata;
      [ | discriminate ].
    intros Hitems.
    pose proof (write_items_response _ _ _ Hitems) as Hall.
    rewrite (write_items_lines _ Hall) in Hitems.
    inversion Hitems; subst.
    exists status, body, res, data. repeat split; assumption.
Qed.

(** X10 at concrete calls. *)
Lemma report_only_from_success_witness :
  let a := {| Fofa.FofaSearchArguments.Query := "port=80";
              Fofa.FofaSearchArguments.Page := 1;
              Fofa.FofaSearchArguments.Size := 50;
              Fofa.FofaSearchArguments.Fields := "ip" |} in
  let b := {| Hunter.HunterSearchArguments.Query := "ip.port=80";
              Hunter.HunterSearchArguments.Page := 1;
              Hunter.HunterSearchArguments.Size := 20;
              Hunter.HunterSearchArguments.IsWeb := 1;
              Hunter.HunterSearchArguments.StartTime := EmptyString;
              Hunter.HunterSearchArguments.EndTime := EmptyString |} in
  let docF := Json.JObject [ ("error", Json.JBool false);
                             ("results", Json.JArray []) ] in
  let docH := Json.JObject
                [ ("code", Json.JNumber "200");
                  ("data", Json.JObject [ ("total", Json.JNumber "0") ]) ] in
  (exists status body res,
      answering 200 docF
        (Fofa.requestURL (Fofa.NewFofaClient "a@b.c" "k")
           (Fofa.FofaSearchArguments.Query (Fofa.defaults a))
           (Fofa.FofaSearchArguments.Page (Fofa.defaults a))
           (Fofa.FofaSearchArguments.Size (Fofa.defaults a))
           (Fofa.FofaSearchArguments.Fields (Fofa.defaults a)))
      = Http.GetOk {| Http.StatusCode := status;
                      Http.Body := Http.ReadOk body |}
      /\ Fofa.Unmarshal body = Ok res
      /\ Fofa.SearchResult.Error res = false
      /\ "搜索结果(共0条):" ++ Fmt.LF = Fofa.output res)
  /\ (exists status body res data,
        answering 200 docH
          (Hunter.requestURL (Hunter.NewHunterClient "k")
             (Hunter.HunterSearchArguments.Query (Hunter.defaults b))
             (Hunter.HunterSearchArguments.Page (Hunter.defaults b))
             (Hunter.HunterSearchArguments.Size (Hunter.defaults b))
             (Hunter.HunterSearchArguments.IsWeb (Hunter.defaults b))
             (Hunter.HunterSearchArguments.StartTime (Hunter.defaults b))
             (Hunter.HunterSearchArguments.EndTime (Hunter.defaults b)))
        = Http.GetOk {| Http.StatusCode := status;
                        Http.Body := Http.ReadOk body |}
        /\ @Hunter.Unmarshal SmallNumbers body = Ok res
        /\ Hunter.SearchResult.Code res = 200
        /\ Hunter.SearchResult.Data res = Some data
        /\ Forall (fun item => is_object item = true)
                  (Hunter.ResultData.Arr data)
        /\ "搜索结果(共0条):" ++ Fmt.LF
           = Hunter.header data
               ++ String.concat EmptyString
                    (map hunter_line (Hunter.ResultData.Arr data))).
Proof.
  intros a b docF docH.
  destruct (@report_only_from_success SmallNumbers "a@b.c" "k" "k"
              (answering 200 docF) a b ("搜索结果(共0条):" ++ Fmt.LF))
    as [Hf _].
  destruct (@report_only_from_success SmallNumbers "a@b.c" "k" "k"
              (answering 200 docH) a b ("搜索结果(共0条):" ++ Fmt.LF))
    as [_ Hh].
  split; [ apply Hf | apply Hh ]; reflexivity.
Defined.

(** ** Decoding, continued *)

Lemma object_app {T : Type} (set_field : T -> string -> Json.json -> result T)
  (before after : list (string * Json.json)) :
  forall cur,
    Json.object set_field cur (before ++ after)
    = match Json.object set_field cur before with
      | Ok cur' => Json.object set_field cur' after
      | Err e => Err e
      end.
Proof.
  induction before as [ | [key v] before IH ]; intros cur; cbn;
    [ reflexivity | ].
  destruct (set_field cur key v); [ apply IH | reflexivity ].
Qed.

Lemma object_skip {T : Type} (set_field : T -> string -> Json.json -> result T)
  (before after : list (string * Json.json)) (key : string) (v : Json.json) :
  (forall cur, set_field cur key v = Ok cur) ->
  forall cur,
    Json.object set_field cur (before ++ (key, v) :: after)
    = Json.object set_field cur (before ++ after).
Proof.
  intros Hskip cur. rewrite !object_app.
  destruct (Json.object set_field cur before); [ | reflexivity ].
  cbn. now rewrite Hskip.
Qed.

Lemma fofa_set_field_skip (r : Fofa.SearchResult.t) (key : string)
  (v : Json.json) :
  selects_none fofa_fields key = true
  \/ (v = Json.JNull /\ Json.matches key "results" = false) ->
  Fofa.SearchResult.set_field r key v = Ok r.
Proof.
  unfold Fofa.SearchResult.set_field, selects_none. cbn [forallb fofa_fields].
  destruct r. intros [ Hnone | [-> Hres] ].
  - repeat match goal with
           | H : context [ Json.matches key ?n ] |- _ =>
               destruct (Json.matches key n); cbn in H; try discriminate H
           end.
    reflexivity.
  - rewrite Hres.
    repeat match goal with
           | |- context [ if Json.matches key ?n then _ else _ ] =>
               destruct (Json.matches key n)
           end; reflexivity.
Qed.

Lemma hunter_set_field_skip `{Float64} (r : Hunter.SearchResult.t)
  (key : string) (v : Json.json) :
  selects_none hunter_fields key = true
  \/ (v = Json.JNull /\ Json.matches key "data" = false) ->
  Hunter.SearchResult.set_field r key v = Ok r.
Proof.
  unfold Hunter.SearchResult.set_field, selects_none.
  cbn [forallb hunter_fields].
  destruct r. intros [ Hnone | [-> Hdata] ].
  - repeat match goal with
           | H : context [ Json.matches key ?n ] |- _ =>
               destruct (Json.matches key n); cbn in H; try discriminate H
           end.
    reflexivity.
  - rewrite Hdata.
    repeat match goal with
           | |- context [ if Json.matches key ?n then _ else _ ] =>
               destruct (Json.matches key n)
           end; reflexivity.
Qed.

(** X11.  A member whose key selects no field of the envelope is skipped,
    wherever it stands in the object, and so is a [null] member of a
    field that is a [bool], an [int] or a [string]: the body decodes as
    it does without the member. *)
Theorem unknown_and_null_members_skipped `{Float64}
  (before after : list (string * Json.json)) (key : string) (v : Json.json) :
  (selects_none fofa_fields key = true
   \/ (v = Json.JNull /\ Json.matches key "results" = false) ->
   Fofa.Unmarshal (Json.Valid (Json.JObject (before ++ (key, v) :: after)))
   = Fofa.Unmarshal (Json.Valid (Json.JObject (before ++ after))))
  /\ (selects_none hunter_fields key = true
      \/ (v = Json.JNull /\ Json.matches key "data" = false) ->
      Hunter.Unmarshal
        (Json.Valid (Json.JObject (before ++ (key, v) :: after)))
      = Hunter.Unmarshal (Json.Valid (Json.JObject (before ++ after)))).
Proof.
  split; intros Hskip; cbn; apply object_skip; intros cur.
  - now apply fofa_set_field_skip.
  - now apply hunter_set_field_skip.
Qed.

(** X11 at concrete bodies: an unknown member [query] in a FOFA body and
    a [null] message in a Hunter body. *)
Lemma unknown_and_null_members_skipped_witness :
  Fofa.Unmarshal
    (Json.Valid (Json.JObject [ ("error", Json.JBool false);
                                ("query", Json.JString "port=80");
                                ("size", Json.JNumber "7") ]))
  = Fofa.Unmarshal
      (Json.Valid (Json.JObject [ ("error", Json.JBool false);
                                  ("size", Json.JNumber "7") ]))
  /\ @Hunter.Unmarshal SmallNumbers
       (Json.Valid (Json.JObject [ ("code", Json.JNumber "200");
                                   ("message", Json.JNull) ]))
     = @Hunter.Unmarshal SmallNumbers
         (Json.Valid (Json.JObject [ ("code", Json.JNumber "200") ])).
Proof.
  split.
  - apply (@unknown_and_null_members_skipped SmallNumbers
             [ ("error", Json.JBool false) ] [ ("size", Json.JNumber "7") ]
             "query" (Json.JString "port=80")).
    left. reflexivity.
  - apply (@unknown_and_null_members_skipped SmallNumbers
             [ ("code", Json.JNumber "200") ] [ ] "message" Json.JNull).
    right. split; reflexivity.
Defined.

Lemma fofa_set_field_keeps_flag (r r' : Fofa.SearchResult.t) (key : string)
  (v : Json.json) :
  Json.matches key "error" = false ->
  Fofa.SearchResult.set_field r key v = Ok r' ->
  Fofa.SearchResult.Error r' = Fofa.SearchResult.Error r.
Proof.
  intros Hkey. unfold Fofa.SearchResult.set_field. rewrite Hkey.
  repeat match goal with
         | |- context [ if Json.matches key ?n then _ else _ ] =>
             destruct (Json.matches key n)
         end;
    try match goal with
        | |- match ?d with _ => _ end = _ -> _ => destruct d
        end;
    intros E; inversion E; reflexivity.
Qed.

Lemma fofa_object_keeps_flag (members : list (string * Json.json)) :
  absent "error" members = true ->
  forall r r', Json.object Fofa.SearchResult.set_field r members = Ok r' ->
               Fofa.SearchResult.Error r' = Fofa.SearchResult.Error r.
Proof.
  induction members as [ | [key v] rest IH ]; cbn; intros Habs r r'.
  - intros E; inversion E; reflexivity.
  - apply andb_true_iff in Habs. destruct Habs as [Hkey Hrest].
    apply negb_true_iff in Hkey.
    destruct (Fofa.SearchResult.set_field r key v) as [ r1 | e ] eqn:Hs;
      [ | discriminate ].
    intros Hobj. rewrite (IH Hrest r1 r' Hobj).
    now apply (fofa_set_field_keeps_flag r r1 key v).
Qed.

Lemma hunter_set_field_keeps_code `{Float64} (r r' : Hunter.SearchResult.t)
  (key : string) (v : Json.json) :
  Json.matches key "code" = false ->
  Hunter.SearchResult.set_field r key v = Ok r' ->
  Hunter.SearchResult.Code r' = Hunter.SearchResult.Code r.
Proof.
  intros Hkey. unfold Hunter.SearchResult.set_field. rewrite Hkey.
  repeat match goal with
         | |- context [ if Json.matches key ?n then _ else _ ] =>
             destruct (Json.matches key n)
         end;
    try match goal with
        | |- match ?d with _ => _ end = _ -> _ => destruct d
        end;
    intros E; inversion E; reflexivity.
Qed.

Lemma hunter_object_keeps_code `{Float64}
  (members : list (string * Json.json)) :
  absent "code" members = true ->
  forall r r', Json.object Hunter.SearchResult.set_field r members = Ok r' ->
               Hunter.SearchResult.Code r' = Hunter.SearchResult.Code r.
Proof.
  induction members as [ | [key v] rest IH ]; cbn; intros Habs r r'.
  - intros E; inversion E; reflexivity.
  - apply andb_true_iff in Habs. destruct Habs as [Hkey Hrest].
    apply negb_true_iff in Hkey.
    destruct (Hunter.SearchResult.set_field r key v) as [ r1 | e ] eqn:Hs;
      [ | discriminate ].
    intros Hobj. rewrite (IH Hrest r1 r' Hobj).
    now apply (hunter_set_field_keeps_code r r1 key v).
Qed.

(** X12.  The two backends disagree on a body that says nothing.  A FOFA
    body without an [error] member counts as a success and is reported;
    a Hunter body without a [code] member has code 0 and counts as a
    backend failure, reported with its message. *)
Theorem absent_indicator `{Float64}
  (email key apiKey : string) (netF netH : Http.Network)
  (a : Fofa.FofaSearchArguments.t) (b : Hunter.HunterSearchArguments.t)
  (statusF statusH : Z) (membersF membersH : list (string * Json.json))
  (resF : Fofa.SearchResult.t) (resH : Hunter.SearchResult.t) :
  ((forall url,
       netF url = Http.GetOk
                    {| Http.StatusCode := statusF;
                       Http.Body :=
                         Http.ReadOk (Json.Valid (Json.JObject membersF)) |}) ->
   absent "error" membersF = true ->
   Fofa.Unmarshal (Json.Valid (Json.JObject membersF)) = Ok resF ->
   Fofa.fofa_search email key netF a = Response (Fofa.output resF))
  /\ ((forall url,
          netH url = Http.GetOk
                       {| Http.StatusCode := statusH;
                          Http.Body :=
                            Http.ReadOk (Json.Valid (Json.JObject membersH)) |}) ->
      absent "code" membersH = true ->
      Hunter.Unmarshal (Json.Valid (Json.JObject membersH)) = Ok resH ->
      Hunter.hunter_search apiKey netH b
      = Failure (Fmt.Errorf (Hunter.SearchResult.Message resH))).
Proof.
  split.
  - intros Hnet Habs Hbody.
    assert (Hflag : Fofa.SearchResult.Error resF = false).
    { apply (fofa_object_keeps_flag membersF Habs Fofa.SearchResult.zero
               resF Hbody). }
    unfold Fofa.fofa_search, Fofa.Search. cbv zeta. rewrite Hnet.
    cbn [Http.Body]. now rewrite Hbody, Hflag.
  - intros Hnet Habs Hbody.
    eapply hunter_backend_failure; [ exact Hnet | exact Hbody | ].
    rewrite (hunter_object_keeps_code membersH Habs Hunter.SearchResult.zero
               resH Hbody).
    cbn. lia.
Qed.

(** X12 at concrete bodies: [{"results":[["a"]]}] and
    [{"message":"unauthorized"}]. *)
Lemma absent_indicator_witness :
  let a := {| Fofa.FofaSearchArguments.Query := "port=80";
              Fofa.FofaSearchArguments.Page := 1;
              Fofa.FofaSearchArguments.Size := 50;
              Fofa.FofaSearchArguments.Fields := "ip" |} in
  let b := {| Hunter.HunterSearchArguments.Query := "ip.port=80";
              Hunter.HunterSearchArguments.Page := 1;
              Hunter.HunterSearchArguments.Size := 20;
              Hunter.HunterSearchArguments.IsWeb := 1;
              Hunter.HunterSearchArguments.StartTime := EmptyString;
              Hunter.HunterSearchArguments.EndTime := EmptyString |} in
  let membersF := [ ("results", Json.JArray [ Json.JArray [ Json.JString "a" ] ]) ] in
  let membersH := [ ("message", Json.JString "unauthorized") ] in
  Fofa.fofa_search "a@b.c" "k" (answering 200 (Json.JObject membersF)) a
  = Response ("搜索结果(共1条):" ++ Fmt.LF ++ "a" ++ Fmt.LF)
  /\ @Hunter.hunter_search SmallNumbers "k"
       (answering 401 (Json.JObject membersH)) b
     = Failure (errorString "unauthorized").
Proof.
  intros a b membersF membersH.
  destruct (@absent_indicator SmallNumbers "a@b.c" "k" "k"
              (answering 200 (Json.JObject membersF))
              (answering 401 (Json.JObject membersH)) a b 200 401
              membersF membersH
              {| Fofa.SearchResult.Error := false;
                 Fofa.SearchResult.ErrMsg := EmptyString;
                 Fofa.SearchResult.Mode := EmptyString;
                 Fofa.SearchResult.Page := 0;
                 Fofa.SearchResult.Size := 0;
                 Fofa.SearchResult.Results := [ [ "a" ] ] |}
              {| Hunter.SearchResult.Code := 0;
                 Hunter.SearchResult.Message := "unauthorized";
                 Hunter.SearchResult.Data := None |}) as [Hf Hh].
  split.
  - apply Hf; [ intros url | | ]; reflexivity.
  - apply Hh; [ intros url | | ]; reflexivity.
Defined.

Lemma map_index_assign_same `{Float64} (m : list (string * value))
  (key : string) (v : value) :
  map_index (map_assign m key v) key = v.
Proof.
  induction m as [ | [k v'] rest IH ]; cbn.
  - now rewrite String.eqb_refl.
  - destruct (String.eqb k key) eqn:Hk; cbn; now rewrite Hk.
Qed.

Lemma map_index_assign_other `{Float64} (m : list (string * value))
  (key key' : string) (v : value) :
  String.eqb key' key = false ->
  map_index (map_assign m key' v) key = map_index m key.
Proof.
  intros Hne. induction m as [ | [k v'] rest IH ]; cbn.
  - now rewrite Hne.
  - destruct (String.eqb k key') eqn:Hk; cbn.
    + apply String.eqb_eq in Hk. subst k. now rewrite Hne.
    + destruct (String.eqb k key); [ reflexivity | exact IH ].
Qed.

Lemma decoded_map_lookup `{Float64}
  (members : list (string * Json.json)) (item : value) (key : string) :
  Json.valueInterface (Json.JObject members) = Ok item ->
  exists itemMap,
    item = VMap itemMap
    /\ match last_member key members with
       | Some x => Json.valueInterface x = Ok (map_index itemMap key)
       | None => map_index itemMap key = VNil
       end.
Proof.
  cbn.
  match goal with
  | |- match ?object members ?m0 with _ => _ end = _ -> _ =>
      assert (Hl : forall l m m',
                 object l m = Ok m' ->
                 match last_member key l with
                 | Some x => Json.valueInterface x = Ok (map_index m' key)
                 | None => map_index m' key = map_index m key
                 end)
  end.
  { induction l as [ | [k x] rest IH ]; intros m m'.
    - intros E; inversion E; reflexivity.
    - cbn [last_member].
      destruct (Json.valueInterface x) as [ y | e ] eqn:Hx;
        [ | discriminate ].
      intros Hrest. specialize (IH _ _ Hrest).
      destruct (last_member key rest) as [ x' | ]; [ exact IH | ].
      destruct (String.eqb k key) eqn:Hk.
      + apply String.eqb_eq in Hk. subst k.
        now rewrite IH, map_index_assign_same.
      + now rewrite IH, map_index_assign_other. }
  match goal with
  | |- match ?r with _ => _ end = _ -> _ => destruct r as [ m | e ] eqn:Hm
  end; [ | discriminate ].
  intros E; inversion E; subst. exists m. split; [ reflexivity | ].
  apply Hl in Hm. destruct (last_member key members); exact Hm.
Qed.

(** X13.  A record is looked up by exact key, and the last member under a
    key wins: after decoding an object into a map, the value under a key
    is the decoded value of the last member with exactly that key, and
    [nil] when the object has no such member. *)
Theorem decoded_record_lookup `{Float64}
  (members : list (string * Json.json)) (item : value) (key : string) :
  Json.valueInterface (Json.JObject members) = Ok item ->
  exists itemMap,
    item = VMap itemMap
    /\ match last_member key members with
       | Some x => Json.valueInterface x = Ok (map_index itemMap key)
       | None => map_index itemMap key = VNil
       end.
Proof. apply decoded_map_lookup. Qed.

(** X13 at a concrete record with two [ip] members and no [IP] one. *)
Lemma decoded_record_lookup_witness :
  exists itemMap,
    VMap [ ("ip", @VString SmallNumbers "2.2.2.2") ] = VMap itemMap
    /\ Json.valueInterface (Json.JString "2.2.2.2")
       = Ok (map_index itemMap "ip").
Proof.
  apply (@decoded_record_lookup SmallNumbers
           [ ("ip", Json.JString "1.1.1.1"); ("ip", Json.JString "2.2.2.2") ]
           (VMap [ ("ip", VString "2.2.2.2") ]) "ip").
  reflexivity.
Defined.

(** X14.  The line of a record that has an address and a port but no
    [web_title], as the records of assets that are not web sites: the
    title is printed as [%!s(<nil>)]. *)
Theorem record_without_title `{Float64}
  (members : list (string * Json.json)) (itemMap : list (string * value))
  (ip lit : string) (port : float64) :
  Json.valueInterface (Json.JObject members) = Ok (VMap itemMap) ->
  last_member "ip" members = Some (Json.JString ip) ->
  last_member "port" members = Some (Json.JNumber lit) ->
  ParseFloat lit = Some port ->
  last_member "web_title" members = None ->
  Hunter.record_line itemMap
  = "IP: " ++ ip ++ " | 端口: " ++ FormatFloat port
      ++ " | 标题: %!s(<nil>)" ++ Fmt.LF.
Proof.
  intros Hdec Hip Hport Hlit Htitle.
  assert (Hlookup : forall key,
             match last_member key members with
             | Some x => Json.valueInterface x = Ok (map_index itemMap key)
             | None => map_index itemMap key = VNil
             end).
  { intros key.
    destruct (decoded_map_lookup members (VMap itemMap) key Hdec)
      as (m & Hm & Hkey).
    inversion Hm; subst. exact Hkey. }
  pose proof (Hlookup "ip") as Hi. rewrite Hip in Hi. cbn in Hi.
  pose proof (Hlookup "port") as Hp. rewrite Hport in Hp. cbn in Hp.
  rewrite Hlit in Hp.
  pose proof (Hlookup "web_title") as Ht. rewrite Htitle in Ht.
  inversion Hi as [Hi']. inversion Hp as [Hp'].
  unfold Hunter.record_line. rewrite <- Hi', <- Hp', Ht. reflexivity.
Qed.

(** X14 at a concrete record. *)
Lemma record_without_title_witness :
  @Hunter.record_line SmallNumbers
    [ ("ip", VString "1.1.1.1"); ("port", @VFloat64 SmallNumbers 22) ]
  = "IP: 1.1.1.1 | 端口: 22 | 标题: %!s(<nil>)" ++ Fmt.LF.
Proof.
  apply (@record_without_title SmallNumbers
           [ ("ip", Json.JString "1.1.1.1"); ("port", Json.JNumber "22") ]
           [ ("ip", VString "1.1.1.1"); ("port", @VFloat64 SmallNumbers 22) ]
           "1.1.1.1" "22" 22); reflexivity.
Defined.

(** ** URL escaping, continued *)

Lemma QueryEscape_length (s : string) :
  (String.length s <= String.length (Url.QueryEscape s))%nat.
Proof.
  induction s as [ | c rest IH ]; cbn; [ lia | ].
  destruct (Ascii.eqb c " "); [ cbn; lia | ].
  destruct (Url.shouldEscape c); cbn; lia.
Qed.

Lemma QueryEscape_unreserved (s : string) :
  all_bytes unreserved s = true -> Url.QueryEscape s = s.
Proof.
  induction s as [ | c rest IH ]; cbn; [ reflexivity | ].
  intros Hs. apply andb_true_iff in Hs. destruct Hs as [Hc Hrest].
  unfold unreserved in Hc. apply negb_true_iff in Hc.
  destruct (Ascii.eqb_spec c " ") as [ -> | _ ]; [ discriminate | ].
  rewrite Hc. now rewrite (IH Hrest).
Qed.

Lemma QueryEscape_fixed (s : string) :
  Url.QueryEscape s = s -> all_bytes unreserved s = true.
Proof.
  induction s as [ | c rest IH ]; cbn; [ reflexivity | ].
  destruct (Ascii.eqb_spec c " ") as [ -> | Hsp ]; [ discriminate | ].
  unfold unreserved at 1.
  destruct (Url.shouldEscape c) eqn:Hc; cbn.
  - intros E. inversion E as [[Hpercent Hrest]].
    pose proof (QueryEscape_length rest) as Hlen.
    apply (f_equal String.length) in Hrest. cbn in Hrest. lia.
  - intros E. inversion E as [Hrest]. rewrite Hrest. now apply IH.
Qed.

Lemma digits_unreserved (d : Decimal.uint) :
  all_bytes unreserved (NilEmpty.string_of_uint d) = true.
Proof. induction d; cbn; auto. Qed.

Lemma fmtInteger_unreserved (n : Z) :
  all_bytes unreserved (Fmt.fmtInteger n) = true.
Proof.
  unfold Fmt.fmtInteger, NilZero.string_of_int.
  destruct (Z.to_int n) as [ d | d ]; unfold NilZero.string_of_uint;
    destruct d; cbn; auto using digits_unreserved.
Qed.

(** X15.  Escaping leaves a value as it is exactly when the value is made
    of unreserved characters (letters, digits, [-], [_], [.], [~]).  So
    the numbers of a request, [page], [size] and [is_web], negative ones
    included, are sent as they are printed. *)
Theorem unreserved_values_sent_as_they_are (s : string) (n : Z) :
  (Url.QueryEscape s = s <-> all_bytes unreserved s = true)
  /\ Url.QueryEscape (Fmt.fmtInteger n) = Fmt.fmtInteger n.
Proof.
  split; [ split | ].
  - apply QueryEscape_fixed.
  - apply QueryEscape_unreserved.
  - apply QueryEscape_unreserved, fmtInteger_unreserved.
Qed.

(** ** Numbers *)

Lemma digits_acc (d : Decimal.uint) :
  forall p : positive,
    Json.digits (NilEmpty.string_of_uint d) (Z.pos p)
    = Some (Z.pos (Pos.of_uint_acc d p)).
Proof.
  induction d; intros p; cbn [NilEmpty.string_of_uint Json.digits];
    try reflexivity;
    match goal with
    | |- context [ Fmt.is_digit ?c ] =>
        change (Fmt.is_digit c) with true; cbv iota
    end;
    cbn [Pos.of_uint_acc]; rewrite <- IHd; f_equal;
    match goal with
    | |- context [ byte_val ?c ] =>
        let v := eval vm_compute in (byte_val c) in
        change (byte_val c) with v
    end; lia.
Qed.

Lemma digits_zero (d : Decimal.uint) :
  Json.digits (NilEmpty.string_of_uint d) 0 = Some (Z.of_N (Pos.of_uint d)).
Proof.
  induction d; cbn [NilEmpty.string_of_uint Json.digits];
    try reflexivity;
    match goal with
    | |- context [ Fmt.is_digit ?c ] =>
        change (Fmt.is_digit c) with true; cbv iota
    end;
    cbn [Pos.of_uint]; try exact IHd;
    cbn [Z.of_N]; rewrite <- digits_acc; f_equal.
Qed.

Lemma ParseInt_digits (c : ascii) (rest : string) :
  Fmt.is_digit c = true ->
  Json.ParseInt (String c rest)
  = match Json.digits (String c rest) 0 with
    | Some v =>
        if (- 2 ^ 63 <=? v) && (v <=? 2 ^ 63 - 1) then Some v else None
    | None => None
    end.
Proof.
  destruct c as [[] [] [] [] [] [] [] []]; try discriminate; reflexivity.
Qed.

Lemma ParseInt_minus (c : ascii) (rest : string) :
  Json.ParseInt (String "-" (String c rest))
  = match Json.digits (String c rest) 0 with
    | Some v =>
        if (- 2 ^ 63 <=? - v) && (- v <=? 2 ^ 63 - 1) then Some (- v)
        else None
    | None => None
    end.
Proof. reflexivity. Qed.

Lemma string_of_uint_head (p : positive) :
  exists c rest,
    NilZero.string_of_uint (Pos.to_uint p) = String c rest
    /\ NilEmpty.string_of_uint (Pos.to_uint p) = String c rest
    /\ Fmt.is_digit c = true.
Proof.
  pose proof (DecimalPos.Unsigned.to_uint_nonnil p) as Hnil.
  unfold NilZero.string_of_uint.
  destruct (Pos.to_uint p); try contradiction;
    cbn [NilEmpty.string_of_uint]; eexists; eexists;
    repeat split; reflexivity.
Qed.

Lemma ParseInt_fmtInteger (n : Z) :
  Json.ParseInt (Fmt.fmtInteger n)
  = if (- 2 ^ 63 <=? n) && (n <=? 2 ^ 63 - 1) then Some n else None.
Proof.
  unfold Fmt.fmtInteger. destruct n as [ | p | p ].
  - reflexivity.
  - cbn [Z.to_int NilZero.string_of_int].
    destruct (string_of_uint_head p) as (c & rest & Hz & He & Hc).
    rewrite Hz, (ParseInt_digits c rest Hc), <- He, digits_zero.
    rewrite DecimalPos.Unsigned.of_to. reflexivity.
  - cbn [Z.to_int NilZero.string_of_int].
    destruct (string_of_uint_head p) as (c & rest & Hz & He & Hc).
    rewrite Hz, ParseInt_minus.
    rewrite <- He, digits_zero, DecimalPos.Unsigned.of_to. reflexivity.
Qed.

(** X16.  The total of a Hunter response is an [int]: a total sent in
    decimal within the 64-bit range is shown in the header as it was
    sent, and a total beyond the range makes the call fail with a decode
    error instead of a report. *)
Theorem reported_total_bounds `{Float64}
  (apiKey : string) (status n : Z)
  (arguments : Hunter.HunterSearchArguments.t) :
  Hunter.hunter_search apiKey
    (answering status
       (Json.JObject
          [ ("code", Json.JNumber "200");
            ("data", Json.JObject
                       [ ("total", Json.JNumber (Fmt.fmtInteger n));
                         ("arr", Json.JArray []) ]) ]))
    arguments
  = if (- 2 ^ 63 <=? n) && (n <=? 2 ^ 63 - 1)
    then Response ("搜索结果(共" ++ Fmt.fmtInteger n ++ "条):" ++ Fmt.LF)
    else Failure (UnmarshalTypeError ("number " ++ Fmt.fmtInteger n) "int").
Proof.
  unfold Hunter.hunter_search, Hunter.Search, answering. cbv zeta.
  cbn [Http.Body].
  assert (Hbody :
    Hunter.Unmarshal
      (Json.Valid
         (Json.JObject
            [ ("code", Json.JNumber "200");
              ("data", Json.JObject
                         [ ("total", Json.JNumber (Fmt.fmtInteger n));
                           ("arr", Json.JArray []) ]) ]))
    = match Json.ParseInt (Fmt.fmtInteger n) with
      | Some total =>
          Ok {| Hunter.SearchResult.Code := 200;
                Hunter.SearchResult.Message := EmptyString;
                Hunter.SearchResult.Data :=
                  Some {| Hunter.ResultData.Total := total;
                          Hunter.ResultData.Time := 0;
                          Hunter.ResultData.Arr := [];
                          Hunter.ResultData.ConsumeQuota := EmptyString;
                          Hunter.ResultData.RestQuota := EmptyString |} |}
      | None => Err (UnmarshalTypeError ("number " ++ Fmt.fmtInteger n) "int")
      end).
  { unfold Hunter.Unmarshal, Json.unmarshal_struct.
    cbn -[Json.ParseInt Fmt.fmtInteger String.append].
    destruct (Json.ParseInt (Fmt.fmtInteger n)); reflexivity. }
  rewrite Hbody, ParseInt_fmtInteger.
  destruct ((- 2 ^ 63 <=? n) && (n <=? 2 ^ 63 - 1)); reflexivity.
Qed.

(** ** Start-up *)


(** X18.  The Hunter server panics at start-up without an API key; when
    it registers its tool the key is non-empty and every call of the
    handler reads the network at the HTTPS search URL of Hunter that
    carries the key, and nowhere else. *)
Theorem hunter_startup `{Float64} (apiKey : string) :
  match Hunter.main apiKey with
  | RegisterTool name _ handler =>
      name = "hunter_search" /\ apiKey <> EmptyString
      /\ forall (net1 net2 : Http.Network)
                (b : Hunter.HunterSearchArguments.t),
           let b' := Hunter.defaults b in
           let url :=
             "https://hunter.qianxin.com/openApi/search?"
               ++ query_string
                    ([ ("api-key", apiKey) ]
                     ++ (if String.eqb
                              (Hunter.HunterSearchArguments.EndTime b')
                              EmptyString
                         then []
                         else [ ("end_time",
                                 Hunter.HunterSearchArguments.EndTime b') ])
                     ++ [ ("is_web",
                           Fmt.fmtInteger
                             (Hunter.HunterSearchArguments.IsWeb b'));
                          ("page",
                           Fmt.fmtInteger
                             (Hunter.HunterSearchArguments.Page b'));
                          ("page_size",
                           Fmt.fmtInteger
                             (Hunter.HunterSearchArguments.Size b'));
                          ("search",
                           Hunter.base64URLEncode
                             (Hunter.HunterSearchArguments.Query b')) ]
                     ++ (if String.eqb
                              (Hunter.HunterSearchArguments.StartTime b')
                              EmptyString
                         then []
                         else [ ("start_time",
                                 Hunter.HunterSearchArguments.StartTime b') ]))%list
           in
           net1 url = net2 url -> handler net1 b = handler net2 b
  | Panic _ => apiKey = EmptyString
  | Exit _ _ => False
  end.
Proof.
  unfold Hunter.main.
  destruct (String.eqb_spec apiKey EmptyString) as [ Hk | Hk ];
    [ exact Hk | ].
  split; [ reflexivity | split; [ exact Hk | ] ].
  intros net1 net2 b. cbv zeta.
  match goal with
  | |- net1 ?u = _ -> _ =>
      assert (Hurl : Hunter.requestURL (Hunter.NewHunterClient apiKey)
                (Hunter.HunterSearchArguments.Query (Hunter.defaults b))
                (Hunter.HunterSearchArguments.Page (Hunter.defaults b))
                (Hunter.HunterSearchArguments.Size (Hunter.defaults b))
                (Hunter.HunterSearchArguments.IsWeb (Hunter.defaults b))
                (Hunter.HunterSearchArguments.StartTime (Hunter.defaults b))
                (Hunter.HunterSearchArguments.EndTime (Hunter.defaults b))
              = u)
  end.
  { rewrite hunter_requestURL. reflexivity. }
  intros Hnet.
  unfold Hunter.hunter_search, Hunter.Search. cbv zeta.
  rewrite Hurl. now rewrite Hnet.
Qed.

(** ** Rows of a FOFA response *)

Lemma traverse_fails {A B : Type} (f : A -> result B) (l : list A) (x : A) :
  In x l -> (exists e, f x = Err e) -> exists e, Json.traverse f l = Err e.
Proof.
  intros Hin [e He]. induction l as [ | y rest IH ]; [ contradiction | ].
  cbn. destruct Hin as [ -> | Hin ].
  - rewrite He. now exists e.
  - destruct (f y); [ | eexists; reflexivity ].
    destruct (IH Hin) as [e' ->]. now exists e'.
Qed.

Lemma object_fails {T : Type}
  (set_field : T -> string -> Json.json -> result T)
  (members : list (string * Json.json)) (key : string) (v : Json.json) :
  In (key, v) members ->
  (forall cur, exists e, set_field cur key v = Err e) ->
  forall cur, exists e, Json.object set_field cur members = Err e.
Proof.
  intros Hin Hfail. induction members as [ | [k x] rest IH ];
    [ contradiction | ].
  intros cur. cbn. destruct Hin as [ E | Hin ].
  - inversion E; subst. destruct (Hfail cur) as [e ->]. now exists e.
  - destruct (set_field cur k x) as [ cur' | e ];
      [ apply (IH Hin) | now exists e ].
Qed.

(** X19.  The rows of a FOFA response must be arrays: when the [results]
    member is an array one of whose elements is neither an array nor
    [null] (a flat list of strings, for one), the body does not decode
    and the call ends with a decode error, not with a report. *)
Theorem flat_results_rejected
  (email key : string) (net : Http.Network)
  (a : Fofa.FofaSearchArguments.t) (status : Z)
  (members : list (string * Json.json)) (name : string)
  (rows : list Json.json) (row : Json.json) :
  (forall url,
      net url = Http.GetOk
                  {| Http.StatusCode := status;
                     Http.Body :=
                       Http.ReadOk (Json.Valid (Json.JObject members)) |}) ->
  In (name, Json.JArray rows) members ->
  Json.matches name "results" = true ->
  In row rows ->
  is_row row = false ->
  exists err,
    Fofa.fofa_search email key net a = Failure err
    /\ kind_of err = DecodeError.
Proof.
  intros Hnet Hmember Hname Hrow Hflat.
  assert (Hfail : forall cur,
             exists e, Fofa.SearchResult.set_field cur name
                         (Json.JArray rows) = Err e).
  { intros cur. unfold Fofa.SearchResult.set_field.
    do 5 (match goal with
          | |- context [ if Json.matches name ?f then _ else _ ] =>
              destruct (Json.matches name f);
              [ cbn; eexists; reflexivity | ]
          end).
    rewrite Hname. cbn [Json.unmarshal_slice].
    destruct (traverse_fails
                (Json.unmarshal_slice Json.unmarshal_string EmptyString
                   "[]string") rows row Hrow) as [e He].
    { destruct row; try discriminate; eexists; reflexivity. }
    rewrite He. now exists e. }
  destruct (object_fails Fofa.SearchResult.set_field members name
              (Json.JArray rows) Hmember Hfail Fofa.SearchResult.zero)
    as [e He].
  exists e. split.
  - unfold Fofa.fofa_search, Fofa.Search. cbv zeta. rewrite Hnet.
    cbn [Http.Body Fofa.Unmarshal Json.unmarshal_struct]. now rewrite He.
  - apply (fofa_unmarshal_error (Json.Valid (Json.JObject members))).
    exact He.
Qed.

(** X19 at a concrete body: the rows of a search for one field. *)
Lemma flat_results_rejected_witness :
  let members := [ ("error", Json.JBool false);
                   ("results", Json.JArray [ Json.JString "1.1.1.1";
                                             Json.JString "2.2.2.2" ]) ] in
  exists err,
    Fofa.fofa_search "a@b.c" "k" (answering 200 (Json.JObject members))
      {| Fofa.FofaSearchArguments.Query := "port=80";
         Fofa.FofaSearchArguments.Page := 1;
         Fofa.FofaSearchArguments.Size := 50;
         Fofa.FofaSearchArguments.Fields := "ip" |}
    = Failure err
    /\ kind_of err = DecodeError.
Proof.
  intros members.
  apply (flat_results_rejected "a@b.c" "k"
           (answering 200 (Json.JObject members)) _ 200 members "results"
           [ Json.JString "1.1.1.1"; Json.JString "2.2.2.2" ]
           (Json.JString "1.1.1.1")).
  - intros url. reflexivity.
  - right. left. reflexivity.
  - reflexivity.
  - left. reflexivity.
  - reflexivity.
Defined.
